(** * Tavus Pipecat quickstart bot: a shallow embedding of [tavus-pipecat.py]

    The program is integration glue: it builds service clients, a
    conversation context, a nine stage pipeline and a task, registers two
    event handlers and hands the task to a runner.  The embedding keeps that
    shape.  Python objects that are mutated in place live in a [World]
    (a store of list objects, the state of the one RTVI processor and of the
    one pipeline task, and a chronological trace of effects); the code is
    written in a state-and-exception monad [M] over that world. *)

From stdpp Require Import gmap strings list fin_maps.
From Stdlib Require Import ZArith.
From Stdlib Require QArith_base.

(** ** Data model *)

Inductive Role := system | user | assistant.

Global Instance Role_eq_dec : EqDecision Role.
Proof. solve_decision. Defined.

(** A conversation message, the dict [{"role": ..., "content": ...}]. *)
Record message := Message { role : Role; content : string }.

Global Instance message_eq_dec : EqDecision message.
Proof. solve_decision. Defined.

(** Frames.  The file itself only ever creates [LLMRunFrame()]. *)
Inductive Frame := LLMRunFrame.

Global Instance Frame_eq_dec : EqDecision Frame.
Proof. solve_decision. Defined.

(** Classes whose instantiation the trace records. *)
Inductive PyClass :=
| VADParams_cls | SileroVADAnalyzer_cls
| SmartTurnParams_cls | LocalSmartTurnAnalyzerV3_cls
| TransportParams_cls | Transport_cls
| ClientSession_cls
| DeepgramSTTService_cls | CartesiaTTSService_cls
| GoogleLLMService_cls | TavusVideoService_cls
| LLMContext_cls | LLMContextAggregatorPair_cls | RTVIProcessor_cls
| Pipeline_cls | PipelineParams_cls | PipelineTask_cls | PipelineRunner_cls.

Global Instance PyClass_eq_dec : EqDecision PyClass.
Proof. solve_decision. Defined.

(** References to list objects of the Python heap. *)
Definition loc := nat.

(** Everything the program does to its surroundings, in the order it does it. *)
Inductive Effect :=
| logger_info_e (line : string)
| construct_e (c : PyClass)
| session_close_e
| set_bot_ready_e
| list_append_e (l : loc) (m : message)
| queue_frames_e (fs : list Frame)
| cancel_e
| runner_run_e.

Global Instance Effect_eq_dec : EqDecision Effect.
Proof. solve_decision. Defined.

Inductive Exn :=
| ConfigurationError (kind : string)      (* no entry for the transport kind *)
| ServiceInitError (c : PyClass).         (* a service constructor raised *)

Inductive Result (A : Type) :=
| Ok (a : A)
| Raised (e : Exn).
Arguments Ok {A} a.
Arguments Raised {A} e.

Record World := mkWorld {
  environ : gmap string string;       (* os.environ after load_dotenv *)
  heap : gmap loc (list message);     (* list objects, by reference *)
  next_loc : loc;                     (* allocation counter *)
  bot_ready : bool;                   (* the RTVI processor's handshake bit *)
  queued : list Frame;                (* frames queued on the pipeline task *)
  cancelled : bool;                   (* the pipeline task was cancelled *)
  trace : list Effect                 (* chronological *)
}.

(** A fresh process with environment [env]. *)
Definition world0 (env : gmap string string) : World :=
  mkWorld env ∅ 0 false [] false [].

(** ** The monad *)

Definition M (A : Type) : Type := World → Result A * World.

Global Instance M_ret : MRet M := λ A a w, (Ok a, w).

Global Instance M_bind : MBind M := λ A B f m w,
  match m w with
  | (Ok a, w') => f a w'
  | (Raised e, w') => (Raised e, w')
  end.

Definition raise {A} (e : Exn) : M A := λ w, (Raised e, w).

(** [try ... finally]: run [fin] whatever the outcome of [body]. *)
Definition finally {A} (body : M A) (fin : World → World) : M A := λ w,
  let '(r, w') := body w in (r, fin w').

Definition emit (e : Effect) (w : World) : World :=
  mkWorld (environ w) (heap w) (next_loc w) (bot_ready w) (queued w)
          (cancelled w) (trace w ++ [e]).

Definition tell (e : Effect) : M unit := λ w, (Ok tt, emit e w).

(** ** Primitives of the surroundings *)

Definition logger_info (line : string) : M unit := tell (logger_info_e line).

Definition construct (c : PyClass) : M unit := tell (construct_e c).

Definition os_getenv (name : string) : M (option string) :=
  λ w, (Ok (environ w !! name), w).

(** A list display [[m1, ..., mn]] allocates a new list object. *)
Definition new_list (xs : list message) : M loc := λ w,
  (Ok (next_loc w),
   mkWorld (environ w) (<[next_loc w := xs]> (heap w)) (S (next_loc w))
           (bot_ready w) (queued w) (cancelled w) (trace w)).

(** [l.append(m)] mutates the object [l] refers to. *)
Definition list_append (l : loc) (m : message) : M unit := λ w,
  (Ok tt,
   emit (list_append_e l m)
     (mkWorld (environ w) (alter (λ xs, xs ++ [m]) l (heap w)) (next_loc w)
              (bot_ready w) (queued w) (cancelled w) (trace w))).

Definition read_list (l : loc) : M (list message) := λ w,
  (Ok (default [] (heap w !! l)), w).

(** ** Transport configuration (lines 57-83) *)

Record VADParams := { stop_secs : QArith_base.Q }.
Record SileroVADAnalyzer := { vad_params : VADParams }.
Record SmartTurnParams := mkSmartTurnParams { }.
Record LocalSmartTurnAnalyzerV3 := { turn_params : SmartTurnParams }.

Record TransportParams := {
  audio_in_enabled : bool;
  audio_out_enabled : bool;
  video_out_enabled : bool;
  video_out_is_live : bool;
  video_out_width : Z;
  video_out_height : Z;
  vad_analyzer : SileroVADAnalyzer;
  turn_analyzer : LocalSmartTurnAnalyzerV3
}.

(** The body of the [lambda] stored under ["webrtc"].  Python evaluates the
    keyword arguments left to right, so the analyzers are built before the
    [TransportParams] object itself. *)
Definition webrtc_params (_ : unit) : M TransportParams :=
  construct VADParams_cls ;;
  construct SileroVADAnalyzer_cls ;;
  construct SmartTurnParams_cls ;;
  construct LocalSmartTurnAnalyzerV3_cls ;;
  construct TransportParams_cls ;;
  mret {| audio_in_enabled := true;
          audio_out_enabled := true;
          video_out_enabled := true;
          video_out_is_live := true;
          video_out_width := 1280;
          video_out_height := 720;
          vad_analyzer :=
            {| vad_params := {| stop_secs := QArith_base.Qmake 2 10 |} |};
          turn_analyzer := {| turn_params := mkSmartTurnParams |} |}.

(** The module level dict [transport_params]: one key, a deferred builder. *)
Definition transport_params : gmap string (unit → M TransportParams) :=
  {[ "webrtc" := webrtc_params ]}.

Record BaseTransport := {
  transport_kind : string;
  transport_config : TransportParams
}.

Record RunnerArguments := {
  cli_transport : string;               (* the kind chosen on the command line *)
  pipeline_idle_timeout_secs : Z;
  handle_sigint : bool
}.

(** Modelled from the spec: [create_transport] is imported from
    [pipecat.runner.utils] and is not part of this file.  Spec 4.1: given a
    transport-kind identifier and a mapping from kind to zero-argument
    builder, resolve and construct exactly one transport instance;
    unresolved kinds fail with a configuration error. *)
Definition create_transport (runner_args : RunnerArguments)
    (params : gmap string (unit → M TransportParams)) : M BaseTransport :=
  match params !! cli_transport runner_args with
  | None => raise (ConfigurationError (cli_transport runner_args))
  | Some builder =>
      p ← builder tt;
      construct Transport_cls ;;
      mret {| transport_kind := cli_transport runner_args; transport_config := p |}
  end.

(** ** Service clients (lines 104-128) *)

Inductive ClientSession := client_session.

Record DeepgramSTTService := { stt_api_key : option string }.
Record CartesiaTTSService := { tts_api_key : option string; voice_id : string }.
Record GoogleLLMService := { llm_api_key : option string }.
Record TavusVideoService := {
  tavus_api_key : option string;
  replica_id : option string;
  tavus_session : ClientSession
}.

(** The constructors of the four vendor clients are library code.  What this
    file fixes is which arguments they receive; whether a constructor accepts
    them is the collaborator's decision, taken here as an interface. *)
Class Collaborators := {
  deepgram_accepts : option string → bool;
  cartesia_accepts : option string → string → bool;
  google_accepts : option string → bool;
  tavus_accepts : option string → option string → bool
}.

(** Modelled from the spec: the constructors of the four vendor clients are
    library code, absent from this file.  Spec 7: a missing or invalid
    credential is a configuration error, surfaced immediately at startup.
    So a constructor raises when its API key is missing ([None]) or is a
    value the vendor does not accept; [valid name v] says whether the vendor
    accepts the value [v] of the variable [name]. *)
Definition credential_ok (valid : string → string → bool) (name : string)
    (k : option string) : bool :=
  match k with
  | Some v => valid name v
  | None => false
  end.

Definition spec_clients (valid : string → string → bool) : Collaborators :=
  {| deepgram_accepts := credential_ok valid "DEEPGRAM_API_KEY";
     cartesia_accepts := λ k _, credential_ok valid "CARTESIA_API_KEY" k;
     google_accepts := credential_ok valid "GOOGLE_API_KEY";
     tavus_accepts := λ k _, credential_ok valid "TAVUS_API_KEY" k |}.

(** The same clients when every key that is set is one the vendor accepts. *)
Definition strict : Collaborators := spec_clients (λ _ _, true).

Section Services.
Context {collab : Collaborators}.

Definition new_DeepgramSTTService (api_key : option string)
  : M DeepgramSTTService :=
  if deepgram_accepts api_key
  then construct DeepgramSTTService_cls ;; mret {| stt_api_key := api_key |}
  else raise (ServiceInitError DeepgramSTTService_cls).

Definition new_CartesiaTTSService (api_key : option string) (voice : string)
  : M CartesiaTTSService :=
  if cartesia_accepts api_key voice
  then construct CartesiaTTSService_cls ;;
       mret {| tts_api_key := api_key; voice_id := voice |}
  else raise (ServiceInitError CartesiaTTSService_cls).

Definition new_GoogleLLMService (api_key : option string)
  : M GoogleLLMService :=
  if google_accepts api_key
  then construct GoogleLLMService_cls ;; mret {| llm_api_key := api_key |}
  else raise (ServiceInitError GoogleLLMService_cls).

Definition new_TavusVideoService (api_key replica : option string)
    (session : ClientSession) : M TavusVideoService :=
  if tavus_accepts api_key replica
  then construct TavusVideoService_cls ;;
       mret {| tavus_api_key := api_key; replica_id := replica;
               tavus_session := session |}
  else raise (ServiceInitError TavusVideoService_cls).
End Services.

(** ** Conversation context and aggregator pair (lines 130-145) *)

Record LLMContext := { ctx_messages : loc }.

(** Modelled from the spec: the class [LLMContext] is imported from
    [pipecat.processors.aggregators.llm_context].  Spec 3: the context owns
    the message sequence and is shared by reference; spec 8: after the ready
    signal the context is [[P, greeting-directive]].  So the constructor keeps
    the reference to the list object it is given. *)
Definition new_LLMContext (messages : loc) : M LLMContext :=
  construct LLMContext_cls ;; mret {| ctx_messages := messages |}.

(** Modelled from the spec: reading the context (as the language-model
    stage does) reads the list object the context refers to. *)
Definition get_messages (ctx : LLMContext) : M (list message) :=
  read_list (ctx_messages ctx).

(** Modelled from the spec: adding to the context appends to that same
    list object (spec 3: ordered sequence, append-only). *)
Definition add_message (ctx : LLMContext) (m : message) : M unit :=
  list_append (ctx_messages ctx) m.

Record LLMContextAggregatorPair := { pair_context : LLMContext }.

Definition new_LLMContextAggregatorPair (ctx : LLMContext)
  : M LLMContextAggregatorPair :=
  construct LLMContextAggregatorPair_cls ;; mret {| pair_context := ctx |}.

(** Modelled from the spec: the two aggregator stages are library code.
    Spec 4.3: the user-side stage observes finalized transcribed-text frames
    and appends a user message; the assistant-side stage observes finalized
    model-output frames and appends an assistant message. *)
Definition user_aggregator_push (ctx : LLMContext) (text : string) : M unit :=
  add_message ctx {| role := user; content := text |}.

(** Modelled from the spec: the assistant-side stage of the pair, as
    described in spec 4.3 (see above). *)
Definition assistant_aggregator_push (ctx : LLMContext) (text : string)
  : M unit :=
  add_message ctx {| role := assistant; content := text |}.

(** ** Coordination processor, pipeline and task (lines 147-190) *)

Inductive RTVIProcessor := the_rtvi.

(** [RTVIProcessor()] makes a new processor: its handshake has not taken
    place. *)
Definition new_RTVIProcessor : M RTVIProcessor := λ w,
  (Ok the_rtvi,
   emit (construct_e RTVIProcessor_cls)
     (mkWorld (environ w) (heap w) (next_loc w) false (queued w)
              (cancelled w) (trace w))).

(** Modelled from the spec: the processor's "mark bot ready" action
    (spec 6) completes the handshake (spec 4.4). *)
Definition set_bot_ready (_ : RTVIProcessor) : M unit := λ w,
  (Ok tt,
   emit set_bot_ready_e
     (mkWorld (environ w) (heap w) (next_loc w) true (queued w)
              (cancelled w) (trace w))).

Inductive FrameProcessor :=
| transport_input (t : BaseTransport)
| rtvi_stage (r : RTVIProcessor)
| stt_stage (s : DeepgramSTTService)
| user_aggregator (c : LLMContext)
| llm_stage (l : GoogleLLMService)
| tts_stage (t : CartesiaTTSService)
| tavus_stage (t : TavusVideoService)
| transport_output (t : BaseTransport)
| assistant_aggregator (c : LLMContext).

Inductive StageKind :=
| TransportInput | Coordination | SpeechToText | UserAggregator
| LanguageModel | TextToSpeech | VideoAvatar | TransportOutput
| AssistantAggregator.

Global Instance StageKind_eq_dec : EqDecision StageKind.
Proof. solve_decision. Defined.

Definition stage_kind (p : FrameProcessor) : StageKind :=
  match p with
  | transport_input _ => TransportInput
  | rtvi_stage _ => Coordination
  | stt_stage _ => SpeechToText
  | user_aggregator _ => UserAggregator
  | llm_stage _ => LanguageModel
  | tts_stage _ => TextToSpeech
  | tavus_stage _ => VideoAvatar
  | transport_output _ => TransportOutput
  | assistant_aggregator _ => AssistantAggregator
  end.

(** A pipeline is the flat list handed to [Pipeline([...])]. *)
Record Pipeline := { processors : list FrameProcessor }.

Definition new_Pipeline (ps : list FrameProcessor) : M Pipeline :=
  construct Pipeline_cls ;; mret {| processors := ps |}.

Record PipelineParams := {
  audio_in_sample_rate : Z;
  audio_out_sample_rate : Z;
  enable_metrics : bool;
  enable_usage_metrics : bool
}.

Record PipelineTask := {
  task_pipeline : Pipeline;
  params : PipelineParams;
  idle_timeout_secs : Z
}.

(** [PipelineTask(...)] makes a new task: nothing is queued on it and it
    is not cancelled. *)
Definition new_PipelineTask (p : Pipeline) (ps : PipelineParams) (idle : Z)
  : M PipelineTask := λ w,
  (Ok {| task_pipeline := p; params := ps; idle_timeout_secs := idle |},
   emit (construct_e PipelineTask_cls)
     (mkWorld (environ w) (heap w) (next_loc w) (bot_ready w) []
              false (trace w))).

(** Modelled from the spec: [task.queue_frames] is library code; the frames
    join the task's queue in order (spec 5: FIFO). *)
Definition queue_frames (_ : PipelineTask) (fs : list Frame) : M unit := λ w,
  (Ok tt,
   emit (queue_frames_e fs)
     (mkWorld (environ w) (heap w) (next_loc w) (bot_ready w)
              (queued w ++ fs) (cancelled w) (trace w))).

(** Modelled from the spec: [task.cancel] is library code; it marks the
    task cancelled (spec 5: cancellation is a request the pipeline honours
    at its next suspension point). *)
Definition cancel (_ : PipelineTask) : M unit := λ w,
  (Ok tt,
   emit cancel_e
     (mkWorld (environ w) (heap w) (next_loc w) (bot_ready w) (queued w)
              true (trace w))).

(** ** Event handlers (lines 192-220) *)

Definition system_prompt : message :=
  {| role := system;
     content := "You are a helpful LLM in a WebRTC call. Your goal is to demonstrate your capabilities in a succinct way. Your output will be converted to audio so don't include special characters in your answers. Respond to what the user said in a creative and helpful way." |}.

Definition greeting_directive : message :=
  {| role := system;
     content := "Start by greeting the user and ask how you can help." |}.

(** The closure [on_client_ready]; [messages] and [task] are the variables of
    [run_bot] it captures. *)
Definition on_client_ready (messages : loc) (task : PipelineTask)
    (rtvi : RTVIProcessor) : M unit :=
  logger_info "Client ready - setting bot ready" ;;
  set_bot_ready rtvi ;;
  list_append messages greeting_directive ;;
  queue_frames task [LLMRunFrame].

Inductive Client := the_client.

(** The closure [on_client_disconnected]; it captures [task]. *)
Definition on_client_disconnected (task : PipelineTask)
    (transport : BaseTransport) (client : Client) : M unit :=
  logger_info "Client disconnected" ;;
  cancel task.

(** ** [run_bot] (lines 86-228) *)

(** What [run_bot] has in scope when it reaches [runner.run(task)]: its local
    variables and the handlers registered by the two decorators, keyed by
    event name on the object they were registered on. *)
Record Bot := {
  bot_messages : loc;
  bot_context : LLMContext;
  bot_aggregator : LLMContextAggregatorPair;
  bot_rtvi : RTVIProcessor;
  bot_transport : BaseTransport;
  bot_task : PipelineTask;
  rtvi_handlers : gmap string (RTVIProcessor → M unit);
  transport_handlers : gmap string (BaseTransport → Client → M unit)
}.

Section RunBot.
Context {collab : Collaborators}.

(** Lines 105-220: the body of the [async with] block up to the creation of
    the runner. *)
Definition build (session : ClientSession) (transport : BaseTransport)
    (runner_args : RunnerArguments) : M Bot :=
  k ← os_getenv "DEEPGRAM_API_KEY";
  stt ← new_DeepgramSTTService k;
  k ← os_getenv "CARTESIA_API_KEY";
  tts ← new_CartesiaTTSService k "a167e0f3-df7e-4d52-a9c3-f949145efdab";
  k ← os_getenv "GOOGLE_API_KEY";
  llm ← new_GoogleLLMService k;
  k ← os_getenv "TAVUS_API_KEY";
  r ← os_getenv "TAVUS_REPLICA_ID";
  tavus ← new_TavusVideoService k r session;
  messages ← new_list [system_prompt];
  context ← new_LLMContext messages;
  context_aggregator ← new_LLMContextAggregatorPair context;
  rtvi ← new_RTVIProcessor;
  pipeline ← new_Pipeline
    [ transport_input transport;
      rtvi_stage rtvi;
      stt_stage stt;
      user_aggregator (pair_context context_aggregator);
      llm_stage llm;
      tts_stage tts;
      tavus_stage tavus;
      transport_output transport;
      assistant_aggregator (pair_context context_aggregator) ];
  construct PipelineParams_cls ;;
  task ← new_PipelineTask pipeline
    {| audio_in_sample_rate := 16000;
       audio_out_sample_rate := 24000;
       enable_metrics := true;
       enable_usage_metrics := true |}
    (pipeline_idle_timeout_secs runner_args);
  mret {| bot_messages := messages;
          bot_context := context;
          bot_aggregator := context_aggregator;
          bot_rtvi := rtvi;
          bot_transport := transport;
          bot_task := task;
          rtvi_handlers :=
            {[ "on_client_ready" := on_client_ready messages task ]};
          transport_handlers :=
            {[ "on_client_disconnected" := on_client_disconnected task ]} |}.
End RunBot.

(** ** The runner *)

(** What reaches the bot while the task runs. *)
Inductive Signal :=
| client_ready                      (* the RTVI client-ready message *)
| client_disconnected               (* the transport lost its client *)
| user_turn (text : string)         (* a finalized transcription *)
| assistant_turn (text : string).   (* a finalized model reply *)

(** Modelled from the spec: how a stage reacts to a frame is library code.
    Of the nine stages only the two aggregators touch the conversation
    context (spec 4.3); the other stages transform frames and leave the
    objects of this file alone. *)
Definition stage_observe (p : FrameProcessor) (sg : Signal) : M unit :=
  match p, sg with
  | user_aggregator c, user_turn t => user_aggregator_push c t
  | assistant_aggregator c, assistant_turn t => assistant_aggregator_push c t
  | _, _ => mret tt
  end.

(** Modelled from the spec: frames visit the stages in pipeline order
    (spec 4.5 and 5). *)
Fixpoint pipeline_observe (ps : list FrameProcessor) (sg : Signal) : M unit :=
  match ps with
  | [] => mret tt
  | p :: ps' => stage_observe p sg ;; pipeline_observe ps' sg
  end.

(** Modelled from the spec: event dispatch is library code.  Spec 4.4 and
    4.6: a client-ready signal invokes the callback registered for it on the
    coordination processor, a client-disconnect signal the one registered on
    the transport; an event without a handler does nothing. *)
Definition deliver (b : Bot) (sg : Signal) : M unit :=
  match sg with
  | client_ready =>
      match rtvi_handlers b !! "on_client_ready" with
      | Some handler => handler (bot_rtvi b)
      | None => mret tt
      end
  | client_disconnected =>
      match transport_handlers b !! "on_client_disconnected" with
      | Some handler => handler (bot_transport b) the_client
      | None => mret tt
      end
  | _ => pipeline_observe (processors (task_pipeline (bot_task b))) sg
  end.

(** Modelled from the spec: [PipelineRunner.run] is library code.  Spec 4.5
    and 5: the runner drives the task to completion or cancellation; handlers
    and frame processing are serialized; once the task is cancelled the
    pipeline is torn down, so nothing is delivered any more. *)
Fixpoint run_signals (b : Bot) (sigs : list Signal) : M unit :=
  match sigs with
  | [] => mret tt
  | sg :: rest => λ w,
      if cancelled w then (Ok tt, w)
      else (deliver b sg ;; run_signals b rest) w
  end.

(** [runner.run(task)]: the run is recorded, then the signals come in. *)
Definition runner_run (b : Bot) (sigs : list Signal) : M unit :=
  tell runner_run_e ;; run_signals b sigs.

Section Entry.
Context {collab : Collaborators}.

(** [sigs] is what arrives while [await runner.run(task)] is pending. *)
Definition run_bot (transport : BaseTransport)
    (runner_args : RunnerArguments) (sigs : list Signal) : M unit :=
  logger_info "Starting bot" ;;
  construct ClientSession_cls ;;
  finally
    (b ← build client_session transport runner_args;
     construct PipelineRunner_cls ;;
     runner_run b sigs)
    (emit session_close_e).

(** Lines 231-246. *)
Definition bot (runner_args : RunnerArguments) (sigs : list Signal)
  : M unit :=
  transport ← create_transport runner_args transport_params;
  run_bot transport runner_args sigs.
End Entry.

(** ** Observations on worlds and traces *)

(** The effects on the session's objects: everything but log lines. *)
Definition is_log (e : Effect) : bool :=
  match e with logger_info_e _ => true | _ => false end.

Definition session_effects (tr : list Effect) : list Effect :=
  filter (λ e, is_log e = false) tr.

(** What happened between two worlds of one run. *)
Definition effects_since (w w' : World) : list Effect :=
  drop (length (trace w)) (trace w').

Definition count_constructed (c : PyClass) (tr : list Effect) : nat :=
  length (filter (λ e, e = construct_e c) tr).

(** The message sequence as the language-model stage sees it. *)
Definition context_view (ctx : LLMContext) (w : World) : list message :=
  match (get_messages ctx w).1 with
  | Ok xs => xs
  | Raised _ => []
  end.

(** The same list object as the local variable [messages] shows it. *)
Definition list_view (l : loc) (w : World) : list message :=
  match (read_list l w).1 with
  | Ok xs => xs
  | Raised _ => []
  end.

(** [n] invocations in a row. *)
Fixpoint times (n : nat) (m : M unit) : M unit :=
  match n with
  | 0 => mret tt
  | S k => m ;; times k m
  end.

(** ** Sample session, used to run the definitions on concrete inputs *)

Definition demo_args : RunnerArguments :=
  {| cli_transport := "webrtc";
     pipeline_idle_timeout_secs := 300;
     handle_sigint := true |}.

Definition demo_transport : BaseTransport :=
  {| transport_kind := "webrtc";
     transport_config :=
       {| audio_in_enabled := true; audio_out_enabled := true;
          video_out_enabled := true; video_out_is_live := true;
          video_out_width := 1280; video_out_height := 720;
          vad_analyzer :=
            {| vad_params := {| stop_secs := QArith_base.Qmake 2 10 |} |};
          turn_analyzer := {| turn_params := mkSmartTurnParams |} |} |}.

(** An environment in which the five variables are set. *)
Definition demo_env : gmap string string :=
  {[ "DEEPGRAM_API_KEY" := "dg-key";
     "CARTESIA_API_KEY" := "ca-key";
     "GOOGLE_API_KEY" := "go-key";
     "TAVUS_API_KEY" := "tv-key";
     "TAVUS_REPLICA_ID" := "replica-1" ]}.

Definition demo_context : LLMContext := {| ctx_messages := 0 |}.

Definition demo_task : PipelineTask :=
  {| task_pipeline :=
       {| processors :=
            [ transport_input demo_transport;
              rtvi_stage the_rtvi;
              stt_stage {| stt_api_key := Some "dg-key" |};
              user_aggregator demo_context;
              llm_stage {| llm_api_key := Some "go-key" |};
              tts_stage {| tts_api_key := Some "ca-key";
                           voice_id := "a167e0f3-df7e-4d52-a9c3-f949145efdab" |};
              tavus_stage {| tavus_api_key := Some "tv-key";
                             replica_id := Some "replica-1";
                             tavus_session := client_session |};
              transport_output demo_transport;
              assistant_aggregator demo_context ] |};
     params := {| audio_in_sample_rate := 16000;
                  audio_out_sample_rate := 24000;
                  enable_metrics := true;
                  enable_usage_metrics := true |};
     idle_timeout_secs := 300 |}.

(** The session built in that environment. *)
Definition demo_bot : Bot :=
  {| bot_messages := 0;
     bot_context := demo_context;
     bot_aggregator := {| pair_context := demo_context |};
     bot_rtvi := the_rtvi;
     bot_transport := demo_transport;
     bot_task := demo_task;
     rtvi_handlers := {[ "on_client_ready" := on_client_ready 0 demo_task ]};
     transport_handlers :=
       {[ "on_client_disconnected" := on_client_disconnected demo_task ]} |}.

(** The world in which that session starts to run: the list object [0]
    holds the system prompt, the processor is not ready, the task is not
    cancelled and has nothing queued. *)
Definition demo_world : World :=
  mkWorld demo_env (<[0 := [system_prompt]]> ∅) 1 false [] false
    [construct_e DeepgramSTTService_cls;
     construct_e CartesiaTTSService_cls;
     construct_e GoogleLLMService_cls;
     construct_e TavusVideoService_cls;
     construct_e LLMContext_cls;
     construct_e LLMContextAggregatorPair_cls;
     construct_e RTVIProcessor_cls;
     construct_e Pipeline_cls;
     construct_e PipelineParams_cls;
     construct_e PipelineTask_cls].

(** ** Derived descriptions used in the statements *)

(** The wiring [build] establishes between the objects of a session. *)
Record wired (b : Bot) : Prop := {
  wired_context : ctx_messages (bot_context b) = bot_messages b;
  wired_pair : pair_context (bot_aggregator b) = bot_context b;
  wired_stages :
    ∃ stt llm tts tavus,
      processors (task_pipeline (bot_task b)) =
      [ transport_input (bot_transport b);
        rtvi_stage (bot_rtvi b);
        stt_stage stt;
        user_aggregator (bot_context b);
        llm_stage llm;
        tts_stage tts;
        tavus_stage tavus;
        transport_output (bot_transport b);
        assistant_aggregator (bot_context b) ];
  wired_ready :
    rtvi_handlers b !! "on_client_ready"
    = Some (on_client_ready (bot_messages b) (bot_task b));
  wired_disconnected :
    transport_handlers b !! "on_client_disconnected"
    = Some (on_client_disconnected (bot_task b))
}.

(** The verdict of the four constructors on what [os.getenv] hands them. *)
Definition credentials_accepted {collab : Collaborators}
    (env : gmap string string) : bool :=
  deepgram_accepts (env !! "DEEPGRAM_API_KEY")
  && cartesia_accepts (env !! "CARTESIA_API_KEY")
       "a167e0f3-df7e-4d52-a9c3-f949145efdab"
  && google_accepts (env !! "GOOGLE_API_KEY")
  && tavus_accepts (env !! "TAVUS_API_KEY") (env !! "TAVUS_REPLICA_ID").

Definition is_disconnect (sg : Signal) : bool :=
  match sg with client_disconnected => true | _ => false end.

(** The entries a signal adds to the conversation. *)
Definition appended (sg : Signal) : list message :=
  match sg with
  | client_ready => [greeting_directive]
  | client_disconnected => []
  | user_turn t => [{| role := user; content := t |}]
  | assistant_turn t => [{| role := assistant; content := t |}]
  end.

(** The frames a signal queues on the task. *)
Definition enqueued (sg : Signal) : list Frame :=
  match sg with client_ready => [LLMRunFrame] | _ => [] end.

(** The effects a signal causes, in order. *)
Definition emitted (l : loc) (sg : Signal) : list Effect :=
  match sg with
  | client_ready =>
      [logger_info_e "Client ready - setting bot ready"; set_bot_ready_e;
       list_append_e l greeting_directive; queue_frames_e [LLMRunFrame]]
  | client_disconnected => [logger_info_e "Client disconnected"; cancel_e]
  | user_turn t => [list_append_e l {| role := user; content := t |}]
  | assistant_turn t => [list_append_e l {| role := assistant; content := t |}]
  end.

(** The signals that are actually delivered: those before the task is
    cancelled, the cancelling one included. *)
Fixpoint delivered (c : bool) (sigs : list Signal) : list Signal :=
  match sigs with
  | [] => []
  | sg :: rest => if c then [] else sg :: delivered (is_disconnect sg) rest
  end.

(** The role of the entries each signal's handler writes. *)
Definition writes_role (sg : Signal) : Role :=
  match sg with
  | user_turn _ => user
  | assistant_turn _ => assistant
  | _ => system
  end.

Definition is_ready (sg : Signal) : bool :=
  match sg with client_ready => true | _ => false end.

(** The effects the two handlers and the aggregators can cause. *)
Definition signal_effect (e : Effect) : bool :=
  match e with
  | logger_info_e _ | set_bot_ready_e | list_append_e _ _
  | queue_frames_e _ | cancel_e => true
  | _ => false
  end.

(** The first client, in the order [run_bot] constructs them, whose
    constructor rejects what [os.getenv] hands it. *)
Definition first_rejected {collab : Collaborators}
    (env : gmap string string) : option PyClass :=
  if negb (deepgram_accepts (env !! "DEEPGRAM_API_KEY"))
  then Some DeepgramSTTService_cls
  else if negb (cartesia_accepts (env !! "CARTESIA_API_KEY")
                  "a167e0f3-df7e-4d52-a9c3-f949145efdab")
  then Some CartesiaTTSService_cls
  else if negb (google_accepts (env !! "GOOGLE_API_KEY"))
  then Some GoogleLLMService_cls
  else if negb (tavus_accepts (env !! "TAVUS_API_KEY")
                  (env !! "TAVUS_REPLICA_ID"))
  then Some TavusVideoService_cls
  else None.

(** The clients [run_bot] has constructed when it reaches the constructor
    of [c]. *)
Definition built_before (c : PyClass) : list PyClass :=
  match c with
  | CartesiaTTSService_cls => [DeepgramSTTService_cls]
  | GoogleLLMService_cls => [DeepgramSTTService_cls; CartesiaTTSService_cls]
  | TavusVideoService_cls =>
      [DeepgramSTTService_cls; CartesiaTTSService_cls; GoogleLLMService_cls]
  | _ => []
  end.

(** The variables that hold the credentials of the four services. *)
Definition credential_variables : list string :=
  ["DEEPGRAM_API_KEY"; "CARTESIA_API_KEY"; "GOOGLE_API_KEY"; "TAVUS_API_KEY"].

(** * Properties *)

Ltac run_m :=
  unfold mbind, M_bind, mret, M_ret, raise, tell, logger_info, construct,
    os_getenv; simpl.

(** ** The handlers *)

Lemma on_client_ready_run messages task rtvi w :
  on_client_ready messages task rtvi w =
  (Ok tt,
   mkWorld (environ w) (alter (λ xs, xs ++ [greeting_directive]) messages (heap w))
     (next_loc w) true (queued w ++ [LLMRunFrame]) (cancelled w)
     (trace w ++ [logger_info_e "Client ready - setting bot ready";
                  set_bot_ready_e;
                  list_append_e messages greeting_directive;
                  queue_frames_e [LLMRunFrame]])).
Proof.
  unfold on_client_ready, set_bot_ready, list_append, queue_frames, emit.
  run_m. by rewrite <- !app_assoc.
Qed.

Lemma on_client_disconnected_run task tr c w :
  on_client_disconnected task tr c w =
  (Ok tt,
   mkWorld (environ w) (heap w) (next_loc w) (bot_ready w) (queued w) true
     (trace w ++ [logger_info_e "Client disconnected"; cancel_e])).
Proof.
  unfold on_client_disconnected, cancel, emit. run_m.
  by rewrite <- !app_assoc.
Qed.

Lemma add_message_run ctx m w :
  add_message ctx m w =
  (Ok tt,
   mkWorld (environ w) (alter (λ xs, xs ++ [m]) (ctx_messages ctx) (heap w))
     (next_loc w) (bot_ready w) (queued w) (cancelled w)
     (trace w ++ [list_append_e (ctx_messages ctx) m])).
Proof. reflexivity. Qed.

Lemma context_view_lookup ctx w :
  context_view ctx w = default [] (heap w !! ctx_messages ctx).
Proof. reflexivity. Qed.

Lemma times_on_client_ready messages task rtvi n w xs :
  heap w !! messages = Some xs →
  (times n (on_client_ready messages task rtvi) w).1 = Ok tt ∧
  heap (times n (on_client_ready messages task rtvi) w).2 !! messages
    = Some (xs ++ replicate n greeting_directive).
Proof.
  revert w xs. induction n as [|n IH]; intros w xs Hxs.
  - simpl. rewrite app_nil_r. done.
  - simpl. unfold mbind, M_bind. rewrite on_client_ready_run.
    match goal with |- context [times n _ ?w1] =>
      destruct (IH w1 (xs ++ [greeting_directive])) as [IH1 IH2] end.
    { simpl. rewrite lookup_alter_eq, Hxs. done. }
    split; [done|]. rewrite IH2. by rewrite <- app_assoc.
Qed.

(** ** What [build] yields *)

Section BuildFacts.
Context {collab : Collaborators}.
Variables (session : ClientSession) (transport : BaseTransport)
          (runner_args : RunnerArguments).

Lemma build_inv w b w1 :
  build session transport runner_args w = (Ok b, w1) →
  wired b ∧
  bot_transport b = transport ∧
  bot_messages b = next_loc w ∧
  params (bot_task b) =
    {| audio_in_sample_rate := 16000; audio_out_sample_rate := 24000;
       enable_metrics := true; enable_usage_metrics := true |} ∧
  idle_timeout_secs (bot_task b) = pipeline_idle_timeout_secs runner_args ∧
  heap w1 = <[next_loc w := [system_prompt]]> (heap w) ∧
  bot_ready w1 = false ∧
  queued w1 = [] ∧
  cancelled w1 = false ∧
  credentials_accepted (environ w) = true.
Proof.
  unfold build, credentials_accepted, new_DeepgramSTTService,
    new_CartesiaTTSService, new_GoogleLLMService, new_TavusVideoService,
    new_list, new_LLMContext, new_LLMContextAggregatorPair,
    new_RTVIProcessor, new_Pipeline, new_PipelineTask.
  run_m.
  destruct (deepgram_accepts _); simpl; [|discriminate].
  destruct (cartesia_accepts _ _); simpl; [|discriminate].
  destruct (google_accepts _); simpl; [|discriminate].
  destruct (tavus_accepts _ _); simpl; [|discriminate].
  intros [= <- <-]. simpl.
  repeat split; try done. simpl. eauto 10.
Qed.

Lemma build_accepted w :
  credentials_accepted (environ w) = true →
  ∃ b w1, build session transport runner_args w = (Ok b, w1) ∧
          trace w1 = trace w ++
            [construct_e DeepgramSTTService_cls;
             construct_e CartesiaTTSService_cls;
             construct_e GoogleLLMService_cls;
             construct_e TavusVideoService_cls;
             construct_e LLMContext_cls;
             construct_e LLMContextAggregatorPair_cls;
             construct_e RTVIProcessor_cls;
             construct_e Pipeline_cls;
             construct_e PipelineParams_cls;
             construct_e PipelineTask_cls].
Proof.
  unfold build, credentials_accepted, new_DeepgramSTTService,
    new_CartesiaTTSService, new_GoogleLLMService, new_TavusVideoService,
    new_list, new_LLMContext, new_LLMContextAggregatorPair,
    new_RTVIProcessor, new_Pipeline, new_PipelineTask.
  run_m. intros Hacc.
  apply andb_true_iff in Hacc as [Hacc H4].
  apply andb_true_iff in Hacc as [Hacc H3].
  apply andb_true_iff in Hacc as [H1 H2].
  rewrite H1; simpl. rewrite H2; simpl. rewrite H3; simpl.
  rewrite H4; simpl.
  eexists _, _. split; [reflexivity|]. simpl.
  by rewrite <- !app_assoc.
Qed.

Lemma build_rejected w :
  credentials_accepted (environ w) = false →
  ∃ e w1 pre, build session transport runner_args w = (Raised e, w1) ∧
              trace w1 = trace w ++ pre ∧
              pre `prefix_of`
                [construct_e DeepgramSTTService_cls;
                 construct_e CartesiaTTSService_cls;
                 construct_e GoogleLLMService_cls].
Proof.
  unfold build, credentials_accepted, new_DeepgramSTTService,
    new_CartesiaTTSService, new_GoogleLLMService, new_TavusVideoService.
  run_m. intros Hacc.
  destruct (deepgram_accepts _); simpl in *.
  2:{ exists (ServiceInitError DeepgramSTTService_cls), w, [].
      split; [done|]. rewrite app_nil_r. split; [done | by eexists]. }
  destruct (cartesia_accepts _ _); simpl in *.
  2:{ eexists _, _, [_]. split; [reflexivity|]. simpl.
      split; [done | by eexists]. }
  destruct (google_accepts _); simpl in *.
  2:{ eexists _, _, [_; _]. split; [reflexivity|]. simpl.
      rewrite <- app_assoc. split; [done | by eexists]. }
  destruct (tavus_accepts _ _); simpl in *; [discriminate|].
  eexists _, _, [_; _; _]. split; [reflexivity|]. simpl.
  rewrite <- !app_assoc. split; [done | by exists []].
Qed.
End BuildFacts.

(** ** Delivery of one signal *)

Lemma deliver_wired b sg w :
  wired b →
  deliver b sg w =
  match sg with
  | client_ready => on_client_ready (bot_messages b) (bot_task b) (bot_rtvi b) w
  | client_disconnected =>
      on_client_disconnected (bot_task b) (bot_transport b) the_client w
  | user_turn t => user_aggregator_push (bot_context b) t w
  | assistant_turn t => assistant_aggregator_push (bot_context b) t w
  end.
Proof.
  intros [_ _ (stt & llm & tts & tavus & Hst) Hrdy Hdis].
  destruct sg; unfold deliver.
  - by rewrite Hrdy.
  - by rewrite Hdis.
  - rewrite Hst. reflexivity.
  - rewrite Hst. reflexivity.
Qed.

Lemma deliver_run b sg w xs :
  wired b →
  heap w !! bot_messages b = Some xs →
  ∃ w', deliver b sg w = (Ok tt, w') ∧
        heap w' !! bot_messages b = Some (xs ++ appended sg) ∧
        (∀ l, l ≠ bot_messages b → heap w' !! l = heap w !! l) ∧
        queued w' = queued w ++ enqueued sg ∧
        cancelled w' = cancelled w || is_disconnect sg ∧
        trace w' = trace w ++ emitted (bot_messages b) sg.
Proof.
  intros Hb Hxs. rewrite deliver_wired by done.
  destruct Hb as [Hctx _ _ _ _].
  destruct sg.
  - rewrite on_client_ready_run. eexists. split; [reflexivity|]. simpl.
    rewrite lookup_alter_eq, Hxs, orb_false_r. repeat split; try done.
    intros l Hl. by rewrite lookup_alter_ne.
  - rewrite on_client_disconnected_run. eexists. split; [reflexivity|].
    simpl. rewrite !app_nil_r, orb_true_r. done.
  - unfold user_aggregator_push. rewrite add_message_run, Hctx.
    eexists. split; [reflexivity|]. simpl.
    rewrite lookup_alter_eq, Hxs, orb_false_r, app_nil_r.
    repeat split; try done. intros l Hl. by rewrite lookup_alter_ne.
  - unfold assistant_aggregator_push. rewrite add_message_run, Hctx.
    eexists. split; [reflexivity|]. simpl.
    rewrite lookup_alter_eq, Hxs, orb_false_r, app_nil_r.
    repeat split; try done. intros l Hl. by rewrite lookup_alter_ne.
Qed.

(** ** A whole run *)

Lemma delivered_cancelled sigs : delivered true sigs = [].
Proof. by destruct sigs. Qed.

Lemma run_signals_run b sigs : ∀ w xs,
  wired b →
  heap w !! bot_messages b = Some xs →
  ∃ w', run_signals b sigs w = (Ok tt, w') ∧
        heap w' !! bot_messages b
          = Some (xs ++ flat_map appended (delivered (cancelled w) sigs)) ∧
        queued w'
          = queued w ++ flat_map enqueued (delivered (cancelled w) sigs) ∧
        cancelled w'
          = cancelled w || existsb is_disconnect (delivered (cancelled w) sigs) ∧
        trace w'
          = trace w ++ flat_map (emitted (bot_messages b))
                                (delivered (cancelled w) sigs).
Proof.
  induction sigs as [|sg rest IH]; intros w xs Hb Hxs.
  - exists w. simpl. rewrite !app_nil_r, orb_false_r. done.
  - simpl. destruct (cancelled w) eqn:Hc.
    + exists w. simpl. rewrite !app_nil_r, Hc. done.
    + unfold mbind, M_bind.
      destruct (deliver_run b sg w xs Hb Hxs)
        as (w1 & -> & Hh & _ & Hq & Hcan & Htr).
      destruct (IH w1 _ Hb Hh) as (w2 & -> & Hh2 & Hq2 & Hcan2 & Htr2).
      exists w2. split; [done|].
      rewrite Hc in Hcan. simpl in Hcan. rewrite Hcan in *.
      simpl. rewrite Hh2, Hq2, Hcan2, Htr2, Hq, Htr.
      rewrite <- !app_assoc. done.
Qed.

(** ** The sample session is what [build] returns *)

Lemma demo_build :
  build (collab := strict) client_session demo_transport demo_args (world0 demo_env)
  = (Ok demo_bot, demo_world).
Proof. by vm_compute. Qed.

Lemma demo_world_messages : heap demo_world !! 0 = Some [system_prompt].
Proof. reflexivity. Qed.

(** * The claims *)

(** ** C1: the greeting directive and repeated ready signals *)

(** C1, as stated, fails: the handler appends unconditionally.  In the
    sample session one invocation of [on_client_ready] leaves the context
    [[P; G]] and two invocations leave [[P; G; G]]; the same happens when a
    session receives the ready signal twice. *)
Lemma on_client_ready_not_idempotent :
  let handler := on_client_ready 0 demo_task the_rtvi in
  let once := (handler demo_world).2 in
  let twice := (handler once).2 in
  context_view demo_context once = [system_prompt; greeting_directive] ∧
  context_view demo_context twice
    = [system_prompt; greeting_directive; greeting_directive] ∧
  context_view demo_context twice ≠ context_view demo_context once ∧
  heap (bot (collab := strict) demo_args [client_ready; client_ready]
            (world0 demo_env)).2 !! 0
    = Some [system_prompt; greeting_directive; greeting_directive].
Proof.
  cbv zeta. repeat split; try by vm_compute.
Qed.

(** C1 (amended): every invocation of [on_client_ready] appends one
    greeting directive to the list the context reads: after [n] invocations
    the context holds its former entries followed by [n] copies of the
    directive; a single invocation adds exactly one. *)
Theorem greeting_appended_per_invocation
    (messages : loc) (task : PipelineTask) (rtvi : RTVIProcessor)
    (ctx : LLMContext) (n : nat) (w : World) (xs : list message) :
  ctx_messages ctx = messages →
  heap w !! messages = Some xs →
  (times n (on_client_ready messages task rtvi) w).1 = Ok tt ∧
  context_view ctx (times n (on_client_ready messages task rtvi) w).2
  = context_view ctx w ++ replicate n greeting_directive.
Proof.
  intros Hctx Hxs.
  destruct (times_on_client_ready messages task rtvi n w xs Hxs) as [H1 H2].
  split; [done|].
  rewrite !context_view_lookup, Hctx. by rewrite H2, Hxs.
Qed.

Lemma greeting_appended_per_invocation_witness :
  (times 3 (on_client_ready 0 demo_task the_rtvi) demo_world).1 = Ok tt ∧
  context_view demo_context
    (times 3 (on_client_ready 0 demo_task the_rtvi) demo_world).2
  = context_view demo_context demo_world ++ replicate 3 greeting_directive.
Proof.
  apply (greeting_appended_per_invocation 0 demo_task the_rtvi
           demo_context 3 demo_world [system_prompt]); reflexivity.
Defined.

(** ** C2: what the ready handler does *)

(** C2: the callback registered for the client-ready event is
    [on_client_ready]; one invocation marks the bot ready, appends one
    system-role message (the greeting directive) to the message list and
    queues one [LLMRunFrame] on the task, in that order, and does nothing
    else to the session (it also writes one log line first). *)
Theorem on_client_ready_effects
    {collab : Collaborators} (session : ClientSession)
    (transport : BaseTransport) (runner_args : RunnerArguments)
    (w0 w1 : World) (b : Bot) (w : World) (xs : list message) :
  build session transport runner_args w0 = (Ok b, w1) →
  heap w !! bot_messages b = Some xs →
  deliver b client_ready w
    = on_client_ready (bot_messages b) (bot_task b) (bot_rtvi b) w ∧
  (deliver b client_ready w).1 = Ok tt ∧
  effects_since w (deliver b client_ready w).2
    = [logger_info_e "Client ready - setting bot ready";
       set_bot_ready_e;
       list_append_e (bot_messages b) greeting_directive;
       queue_frames_e [LLMRunFrame]] ∧
  session_effects (effects_since w (deliver b client_ready w).2)
    = [set_bot_ready_e;
       list_append_e (bot_messages b) greeting_directive;
       queue_frames_e [LLMRunFrame]] ∧
  role greeting_directive = system ∧
  bot_ready (deliver b client_ready w).2 = true ∧
  heap (deliver b client_ready w).2 !! bot_messages b
    = Some (xs ++ [greeting_directive]) ∧
  (∀ l, l ≠ bot_messages b →
        heap (deliver b client_ready w).2 !! l = heap w !! l) ∧
  queued (deliver b client_ready w).2 = queued w ++ [LLMRunFrame] ∧
  cancelled (deliver b client_ready w).2 = cancelled w.
Proof.
  intros Hbuild Hxs.
  apply build_inv in Hbuild as (Hb & _).
  rewrite (deliver_wired b client_ready w Hb).
  rewrite on_client_ready_run. unfold effects_since. simpl.
  rewrite drop_app_length, lookup_alter_eq, Hxs.
  repeat split; try done.
  intros l Hl. by rewrite lookup_alter_ne.
Qed.

Lemma on_client_ready_effects_witness :
  session_effects
    (effects_since demo_world (deliver demo_bot client_ready demo_world).2)
  = [set_bot_ready_e; list_append_e 0 greeting_directive;
     queue_frames_e [LLMRunFrame]].
Proof.
  exact (proj1 (proj2 (proj2 (proj2
    (on_client_ready_effects (collab := strict) client_session
       demo_transport demo_args (world0 demo_env) demo_world demo_bot demo_world
       [system_prompt] demo_build demo_world_messages))))).
Defined.

(** ** C3: the pipeline *)

(** C3: the pipeline [run_bot] constructs is the flat list of exactly nine
    stages, in the order transport input, RTVI coordination, speech-to-text,
    user-side aggregator, language model, text-to-speech, video avatar,
    transport output, assistant-side aggregator, whatever the environment,
    the transport and the runner arguments are. *)
Theorem pipeline_nine_stages
    {collab : Collaborators} (session : ClientSession)
    (transport : BaseTransport) (runner_args : RunnerArguments)
    (w w1 : World) (b : Bot) :
  build session transport runner_args w = (Ok b, w1) →
  stage_kind <$> processors (task_pipeline (bot_task b))
    = [TransportInput; Coordination; SpeechToText; UserAggregator;
       LanguageModel; TextToSpeech; VideoAvatar; TransportOutput;
       AssistantAggregator] ∧
  length (processors (task_pipeline (bot_task b))) = 9 ∧
  NoDup (stage_kind <$> processors (task_pipeline (bot_task b))) ∧
  processors (task_pipeline (bot_task b)) !! 0 = Some (transport_input transport) ∧
  processors (task_pipeline (bot_task b)) !! 7 = Some (transport_output transport).
Proof.
  intros Hbuild.
  apply build_inv in Hbuild as ([_ _ (stt & llm & tts & tavus & ->) _ _] & -> & _).
  repeat split; try done.
  simpl. apply (bool_decide_unpack _). by vm_compute.
Qed.

Lemma pipeline_nine_stages_witness :
  stage_kind <$> processors (task_pipeline (bot_task demo_bot))
    = [TransportInput; Coordination; SpeechToText; UserAggregator;
       LanguageModel; TextToSpeech; VideoAvatar; TransportOutput;
       AssistantAggregator].
Proof.
  exact (proj1 (pipeline_nine_stages (collab := strict) client_session
                  demo_transport demo_args (world0 demo_env) demo_world demo_bot
                  demo_build)).
Defined.

(** ** C4: the sample rates of the task *)

(** C4, as stated, fails: the task of the sample session (and of every
    session) takes audio in at 16000 Hz and puts audio out at 24000 Hz. *)
Lemma sample_rates_differ :
  build (collab := strict) client_session demo_transport demo_args (world0 demo_env)
    = (Ok demo_bot, demo_world) ∧
  audio_in_sample_rate (params (bot_task demo_bot)) = 16000%Z ∧
  audio_out_sample_rate (params (bot_task demo_bot)) = 24000%Z ∧
  audio_in_sample_rate (params (bot_task demo_bot))
    ≠ audio_out_sample_rate (params (bot_task demo_bot)).
Proof. split; [exact demo_build|]. repeat split; done. Qed.

(** C4 (amended): the pipeline task is configured with fixed audio sample
    rates, the same for every session: 16000 Hz for input and 24000 Hz for
    output. *)
Theorem sample_rates_fixed
    {collab : Collaborators} (session : ClientSession)
    (transport : BaseTransport) (runner_args : RunnerArguments)
    (w w1 : World) (b : Bot) :
  build session transport runner_args w = (Ok b, w1) →
  audio_in_sample_rate (params (bot_task b)) = 16000%Z ∧
  audio_out_sample_rate (params (bot_task b)) = 24000%Z.
Proof.
  intros Hbuild.
  apply build_inv in Hbuild as (_ & _ & _ & -> & _). done.
Qed.

Lemma sample_rates_fixed_witness :
  audio_in_sample_rate (params (bot_task demo_bot)) = 16000%Z ∧
  audio_out_sample_rate (params (bot_task demo_bot)) = 24000%Z.
Proof.
  exact (sample_rates_fixed (collab := strict) client_session
           demo_transport demo_args (world0 demo_env) demo_world demo_bot
           demo_build).
Defined.

(** ** C5: disconnect before ready *)

Lemma delivered_no_ready pre rest : ∀ c,
  client_ready ∉ pre →
  client_ready ∉ delivered c (pre ++ client_disconnected :: rest).
Proof.
  induction pre as [|sg pre IH]; intros c Hpre; simpl.
  - destruct c; [apply not_elem_of_nil|].
    rewrite delivered_cancelled, elem_of_cons, elem_of_nil.
    intros [?|[]]. discriminate.
  - destruct c; [apply not_elem_of_nil|].
    apply not_elem_of_cons in Hpre as [Hsg Hpre].
    apply not_elem_of_cons. split; [done|]. by apply IH.
Qed.

Lemma delivered_disconnects pre rest :
  existsb is_disconnect (delivered false (pre ++ client_disconnected :: rest))
  = true.
Proof.
  induction pre as [|sg pre IH]; simpl; [done|].
  destruct (is_disconnect sg) eqn:Hsg; [done|]. exact IH.
Qed.

Lemma no_ready_no_greeting_effect l sigs :
  client_ready ∉ sigs →
  (∀ l', list_append_e l' greeting_directive ∉ flat_map (emitted l) sigs) ∧
  (∀ fs, queue_frames_e fs ∉ flat_map (emitted l) sigs).
Proof.
  induction sigs as [|sg sigs IH]; intros Hno; simpl.
  - split; intros ?; apply not_elem_of_nil.
  - apply not_elem_of_cons in Hno as [Hsg Hno].
    destruct (IH Hno) as [IH1 IH2].
    split; intros x; rewrite elem_of_app; intros [Hin|Hin];
      try (by eapply IH1); try (by eapply IH2);
      destruct sg; simpl in Hin; try done;
      repeat (apply elem_of_cons in Hin as [Hin|Hin]; try discriminate);
      by apply elem_of_nil in Hin.
Qed.

Lemma no_ready_no_greeting_entry sigs :
  client_ready ∉ sigs →
  (greeting_directive ∉ flat_map appended sigs) ∧ flat_map enqueued sigs = [].
Proof.
  induction sigs as [|sg sigs IH]; intros Hno; simpl.
  - split; [apply not_elem_of_nil | done].
  - apply not_elem_of_cons in Hno as [Hsg Hno].
    destruct (IH Hno) as [IH1 IH2]. split.
    + rewrite elem_of_app. intros [Hin|Hin]; [|done].
      destruct sg; simpl in Hin; try done;
        repeat (apply elem_of_cons in Hin as [Hin|Hin]; try discriminate);
        by apply elem_of_nil in Hin.
    + destruct sg; simpl; try done.
Qed.

Lemma build_messages
    {collab : Collaborators} (session : ClientSession)
    (transport : BaseTransport) (runner_args : RunnerArguments)
    (w w1 : World) (b : Bot) :
  build session transport runner_args w = (Ok b, w1) →
  heap w1 !! bot_messages b = Some [system_prompt].
Proof.
  intros Hbuild.
  apply build_inv in Hbuild as (_ & _ & -> & _ & _ & -> & _).
  apply lookup_insert_eq.
Qed.

(** C5: in a session where the client-disconnect signal arrives before any
    client-ready signal, the callback registered for the disconnect event
    is [on_client_disconnected], which cancels the task in every state; the
    task ends cancelled, no greeting directive is appended to the
    conversation context and no frame is queued on the task, whatever
    arrives afterwards. *)
Theorem disconnect_before_ready
    {collab : Collaborators} (session : ClientSession)
    (transport : BaseTransport) (runner_args : RunnerArguments)
    (w0 w1 : World) (b : Bot) (pre rest : list Signal) :
  build session transport runner_args w0 = (Ok b, w1) →
  cancelled w1 = false →
  client_ready ∉ pre →
  transport_handlers b !! "on_client_disconnected"
    = Some (on_client_disconnected (bot_task b)) ∧
  (∀ w tr c, cancelled (on_client_disconnected (bot_task b) tr c w).2 = true) ∧
  (run_signals b (pre ++ client_disconnected :: rest) w1).1 = Ok tt ∧
  cancelled (run_signals b (pre ++ client_disconnected :: rest) w1).2 = true ∧
  (∀ l, list_append_e l greeting_directive
        ∉ effects_since w1
            (run_signals b (pre ++ client_disconnected :: rest) w1).2) ∧
  (∀ fs, queue_frames_e fs
         ∉ effects_since w1
             (run_signals b (pre ++ client_disconnected :: rest) w1).2) ∧
  (greeting_directive
     ∉ context_view (bot_context b)
         (run_signals b (pre ++ client_disconnected :: rest) w1).2) ∧
  queued (run_signals b (pre ++ client_disconnected :: rest) w1).2 = queued w1.
Proof.
  intros Hbuild Hc Hpre.
  pose proof (build_messages _ _ _ _ _ _ Hbuild) as Hmsgs.
  apply build_inv in Hbuild as (Hb & _).
  split; [apply Hb|].
  split; [intros w tr c; by rewrite on_client_disconnected_run|].
  destruct (run_signals_run b (pre ++ client_disconnected :: rest) w1 _ Hb Hmsgs)
    as (w2 & -> & Hh & Hq & Hcan & Htr).
  rewrite Hc in *. simpl in Hcan. simpl.
  pose proof (delivered_no_ready pre rest false Hpre) as Hno.
  destruct (no_ready_no_greeting_effect (bot_messages b) _ Hno) as [He1 He2].
  destruct (no_ready_no_greeting_entry _ Hno) as [Hm1 Hm2].
  split; [done|].
  split; [by rewrite Hcan, delivered_disconnects|].
  unfold effects_since. rewrite Htr, drop_app_length.
  split; [done|]. split; [done|]. split.
  - rewrite context_view_lookup, (wired_context b Hb), Hh. simpl.
    apply not_elem_of_cons. split; [discriminate | done].
  - by rewrite Hq, Hm2, app_nil_r.
Qed.

Lemma disconnect_before_ready_witness :
  cancelled (run_signals demo_bot
               ([user_turn "hello"] ++ client_disconnected :: [client_ready])
               demo_world).2 = true.
Proof.
  refine (proj1 (proj2 (proj2 (proj2
    (disconnect_before_ready (collab := strict) client_session
       demo_transport demo_args (world0 demo_env) demo_world demo_bot
       [user_turn "hello"] [client_ready] demo_build eq_refl _))))).
  apply not_elem_of_cons. split; [discriminate | apply not_elem_of_nil].
Defined.

(** ** C6: who writes to the conversation context *)

(** C6, as stated, fails: in the sample session the client-ready signal is
    handled by [on_client_ready], which is neither aggregator, and it turns
    the context [[P]] into [[P; G]], where [G] is a system-role entry. *)
Lemma ready_handler_writes_context :
  deliver demo_bot client_ready demo_world
    = on_client_ready (bot_messages demo_bot) (bot_task demo_bot)
        (bot_rtvi demo_bot) demo_world ∧
  context_view (bot_context demo_bot) demo_world = [system_prompt] ∧
  context_view (bot_context demo_bot)
    (deliver demo_bot client_ready demo_world).2
    = [system_prompt; greeting_directive] ∧
  role greeting_directive ≠ user ∧
  role greeting_directive ≠ assistant.
Proof. repeat split; done. Qed.

(** C6 (amended): the conversation context has three writers.  A user turn
    is handled by the user-side aggregator, which appends one user-role
    entry; an assistant turn by the assistant-side aggregator, which appends
    one assistant-role entry; the client-ready signal by [on_client_ready],
    which appends the system-role greeting directive.  Nothing else writes:
    the disconnect handler leaves the context as it is. *)
Theorem context_writers
    {collab : Collaborators} (session : ClientSession)
    (transport : BaseTransport) (runner_args : RunnerArguments)
    (w0 w1 : World) (b : Bot) (w : World) (xs : list message) (sg : Signal) :
  build session transport runner_args w0 = (Ok b, w1) →
  heap w !! bot_messages b = Some xs →
  deliver b sg w
    = match sg with
      | user_turn t => user_aggregator_push (bot_context b) t w
      | assistant_turn t => assistant_aggregator_push (bot_context b) t w
      | client_ready =>
          on_client_ready (bot_messages b) (bot_task b) (bot_rtvi b) w
      | client_disconnected =>
          on_client_disconnected (bot_task b) (bot_transport b) the_client w
      end ∧
  context_view (bot_context b) (deliver b sg w).2
    = context_view (bot_context b) w ++ appended sg ∧
  Forall (λ m, role m = writes_role sg) (appended sg) ∧
  length (appended sg) = (if is_disconnect sg then 0 else 1).
Proof.
  intros Hbuild Hxs.
  apply build_inv in Hbuild as (Hb & _).
  split; [rewrite (deliver_wired b sg w Hb); by destruct sg|].
  destruct (deliver_run b sg w xs Hb Hxs) as (w' & -> & Hh & _).
  rewrite !context_view_lookup, (wired_context b Hb). simpl.
  rewrite Hh, Hxs. split; [done|].
  destruct sg; simpl; repeat constructor.
Qed.

Lemma context_writers_witness :
  context_view (bot_context demo_bot)
    (deliver demo_bot (user_turn "hello") demo_world).2
  = context_view (bot_context demo_bot) demo_world
    ++ appended (user_turn "hello").
Proof.
  exact (proj1 (proj2
    (context_writers (collab := strict) client_session demo_transport
       demo_args (world0 demo_env) demo_world demo_bot demo_world [system_prompt]
       (user_turn "hello") demo_build demo_world_messages))).
Defined.

(** ** C8: the context starts with the system prompt and only grows *)

Lemma delivered_app c s1 s2 :
  ∃ k, delivered c (s1 ++ s2) = delivered c s1 ++ k.
Proof.
  revert c. induction s1 as [|sg s1 IH]; intros c; simpl.
  - by eexists.
  - destruct c; [by exists []|].
    destruct (IH (is_disconnect sg)) as [k ->]. by exists k.
Qed.

(** C8: when the session starts, the conversation context is the one-entry
    list holding the fixed system prompt; and whatever signals arrive, each
    delivery only adds entries at the end: the context after any run is a
    prefix of the context after any longer run, and its first entry stays
    the system prompt. *)
Theorem context_append_only
    {collab : Collaborators} (session : ClientSession)
    (transport : BaseTransport) (runner_args : RunnerArguments)
    (w0 w1 : World) (b : Bot) :
  build session transport runner_args w0 = (Ok b, w1) →
  context_view (bot_context b) w1 = [system_prompt] ∧
  (∀ w xs sg,
     heap w !! bot_messages b = Some xs →
     context_view (bot_context b) (deliver b sg w).2
     = context_view (bot_context b) w ++ appended sg) ∧
  (∀ sigs more,
     context_view (bot_context b) (run_signals b sigs w1).2
       `prefix_of`
       context_view (bot_context b) (run_signals b (sigs ++ more) w1).2) ∧
  (∀ sigs,
     head (context_view (bot_context b) (run_signals b sigs w1).2)
     = Some system_prompt).
Proof.
  intros Hbuild.
  pose proof (build_messages _ _ _ _ _ _ Hbuild) as Hmsgs.
  apply build_inv in Hbuild as (Hb & _).
  assert (Hview : ∀ sigs,
             context_view (bot_context b) (run_signals b sigs w1).2
             = [system_prompt]
               ++ flat_map appended (delivered (cancelled w1) sigs)).
  { intros sigs.
    destruct (run_signals_run b sigs w1 _ Hb Hmsgs) as (w2 & -> & Hh & _).
    rewrite context_view_lookup, (wired_context b Hb). simpl.
    by rewrite Hh. }
  split; [by rewrite context_view_lookup, (wired_context b Hb), Hmsgs|].
  split.
  { intros w xs sg Hxs.
    destruct (deliver_run b sg w xs Hb Hxs) as (w' & -> & Hh & _).
    rewrite !context_view_lookup, (wired_context b Hb). simpl.
    by rewrite Hh, Hxs. }
  split.
  - intros sigs more. rewrite !Hview.
    destruct (delivered_app (cancelled w1) sigs more) as [k ->].
    rewrite flat_map_app, app_assoc. by eexists.
  - intros sigs. by rewrite Hview.
Qed.

Lemma context_append_only_witness :
  context_view (bot_context demo_bot) demo_world = [system_prompt].
Proof.
  exact (proj1
    (context_append_only (collab := strict) client_session demo_transport
       demo_args (world0 demo_env) demo_world demo_bot demo_build)).
Defined.

(** ** C10: the local list and the context's list are one object *)

(** C10: the reference the context holds is the reference the local
    variable [messages] holds, for the whole session: after any signals the
    two show the same sequence, an append by [on_client_ready] through
    [messages] shows in the context, and an append by either aggregator
    through the context shows in [messages]. *)
Theorem messages_context_same_object
    {collab : Collaborators} (session : ClientSession)
    (transport : BaseTransport) (runner_args : RunnerArguments)
    (w0 w1 : World) (b : Bot) :
  build session transport runner_args w0 = (Ok b, w1) →
  ctx_messages (bot_context b) = bot_messages b ∧
  ctx_messages (pair_context (bot_aggregator b)) = bot_messages b ∧
  ∀ sigs,
    list_view (bot_messages b) (run_signals b sigs w1).2
    = context_view (bot_context b) (run_signals b sigs w1).2 ∧
    context_view (bot_context b)
      (on_client_ready (bot_messages b) (bot_task b) (bot_rtvi b)
         (run_signals b sigs w1).2).2
    = context_view (bot_context b) (run_signals b sigs w1).2
      ++ [greeting_directive] ∧
    (∀ t,
       list_view (bot_messages b)
         (user_aggregator_push (pair_context (bot_aggregator b)) t
            (run_signals b sigs w1).2).2
       = list_view (bot_messages b) (run_signals b sigs w1).2
         ++ [{| role := user; content := t |}]) ∧
    (∀ t,
       list_view (bot_messages b)
         (assistant_aggregator_push (pair_context (bot_aggregator b)) t
            (run_signals b sigs w1).2).2
       = list_view (bot_messages b) (run_signals b sigs w1).2
         ++ [{| role := assistant; content := t |}]).
Proof.
  intros Hbuild.
  pose proof (build_messages _ _ _ _ _ _ Hbuild) as Hmsgs.
  apply build_inv in Hbuild as (Hb & _).
  pose proof (wired_context b Hb) as Hctx.
  pose proof (wired_pair b Hb) as Hpair.
  split; [done|]. split; [by rewrite Hpair|].
  intros sigs.
  destruct (run_signals_run b sigs w1 _ Hb Hmsgs) as (w2 & -> & Hh & _).
  cbn [snd]. rewrite Hpair.
  unfold list_view, read_list, user_aggregator_push,
    assistant_aggregator_push.
  rewrite !context_view_lookup, on_client_ready_run, Hctx. simpl.
  rewrite Hctx, !lookup_alter_eq, Hh.
  repeat split; try done; intros t; by rewrite lookup_alter_eq, Hh.
Qed.

Lemma messages_context_same_object_witness :
  ctx_messages (bot_context demo_bot) = bot_messages demo_bot.
Proof.
  exact (proj1
    (messages_context_same_object (collab := strict) client_session
       demo_transport demo_args (world0 demo_env) demo_world demo_bot demo_build)).
Defined.

(** ** C9: transport selection *)

Lemma create_transport_unknown (runner_args : RunnerArguments) (w : World) :
  cli_transport runner_args ≠ "webrtc" →
  create_transport runner_args transport_params w
  = (Raised (ConfigurationError (cli_transport runner_args)), w).
Proof.
  intros Hkind. unfold create_transport, transport_params.
  rewrite lookup_singleton_ne by done. reflexivity.
Qed.

Lemma create_transport_webrtc (runner_args : RunnerArguments) (w : World) :
  cli_transport runner_args = "webrtc" →
  ∃ t w1,
    create_transport runner_args transport_params w = (Ok t, w1) ∧
    (webrtc_params tt w).1 = Ok (transport_config t) ∧
    environ w1 = environ w ∧
    trace w1 = trace (webrtc_params tt w).2 ++ [construct_e Transport_cls] ∧
    trace (webrtc_params tt w).2
    = trace w ++ [construct_e VADParams_cls;
                  construct_e SileroVADAnalyzer_cls;
                  construct_e SmartTurnParams_cls;
                  construct_e LocalSmartTurnAnalyzerV3_cls;
                  construct_e TransportParams_cls].
Proof.
  intros Hkind. unfold create_transport, transport_params.
  rewrite Hkind, lookup_singleton_eq.
  unfold webrtc_params. run_m.
  eexists _, _. split; [reflexivity|].
  repeat split. by rewrite <- !app_assoc.
Qed.

(** C9: for every transport kind other than ["webrtc"], the only key of
    [transport_params], selection raises a configuration error and leaves
    the world as it was, so neither a transport nor a [TransportParams]
    object is constructed; for ["webrtc"], the builder stored under that key
    is invoked once, on no arguments, and one transport is constructed from
    what it returns. *)
Theorem transport_selection (runner_args : RunnerArguments) (w : World) :
  dom transport_params = {[ "webrtc" ]} ∧
  (cli_transport runner_args ≠ "webrtc" →
     create_transport runner_args transport_params w
       = (Raised (ConfigurationError (cli_transport runner_args)), w) ∧
     count_constructed Transport_cls
       (effects_since w (create_transport runner_args transport_params w).2)
       = 0 ∧
     count_constructed TransportParams_cls
       (effects_since w (create_transport runner_args transport_params w).2)
       = 0) ∧
  (cli_transport runner_args = "webrtc" →
     ∃ t,
       (create_transport runner_args transport_params w).1 = Ok t ∧
       (webrtc_params tt w).1 = Ok (transport_config t) ∧
       effects_since w (create_transport runner_args transport_params w).2
         = effects_since w (webrtc_params tt w).2
           ++ [construct_e Transport_cls] ∧
       count_constructed Transport_cls
         (effects_since w (create_transport runner_args transport_params w).2)
         = 1 ∧
       count_constructed TransportParams_cls
         (effects_since w (create_transport runner_args transport_params w).2)
         = 1).
Proof.
  split; [apply dom_singleton_L|]. split.
  - intros Hkind. rewrite (create_transport_unknown _ w Hkind).
    unfold effects_since. cbn [snd]. rewrite drop_all.
    repeat split.
  - intros Hkind.
    destruct (create_transport_webrtc runner_args w Hkind)
      as (t & w1 & -> & Hp & _ & Htr & Htr').
    exists t. split; [reflexivity|]. split; [exact Hp|].
    unfold effects_since. cbn [snd]. rewrite Htr, Htr'.
    rewrite <- !app_assoc, !drop_app_length. repeat split.
Qed.

Lemma transport_selection_witness :
  create_transport
    {| cli_transport := "daily"; pipeline_idle_timeout_secs := 300;
       handle_sigint := true |} transport_params (world0 ∅)
  = (Raised (ConfigurationError "daily"), world0 ∅) ∧
  ∃ t, (create_transport demo_args transport_params (world0 ∅)).1 = Ok t ∧
       count_constructed Transport_cls
         (effects_since (world0 ∅)
            (create_transport demo_args transport_params (world0 ∅)).2) = 1.
Proof.
  split.
  - refine (proj1 (proj1 (proj2
      (transport_selection
         {| cli_transport := "daily"; pipeline_idle_timeout_secs := 300;
            handle_sigint := true |} (world0 ∅))) _)).
    discriminate.
  - destruct (proj2 (proj2 (transport_selection demo_args (world0 ∅)))
                eq_refl) as (t & Ht & _ & _ & Hc & _).
    exists t. split; [exact Ht | exact Hc].
Defined.

(** ** C7: configuration errors at startup *)

Section Startup.
Context {collab : Collaborators}.

Lemma run_bot_unfold transport runner_args sigs w :
  run_bot transport runner_args sigs w =
  match build client_session transport runner_args
          (emit (construct_e ClientSession_cls)
             (emit (logger_info_e "Starting bot") w)) with
  | (Ok b, w1) =>
      ((runner_run b sigs (emit (construct_e PipelineRunner_cls) w1)).1,
       emit session_close_e
         (runner_run b sigs (emit (construct_e PipelineRunner_cls) w1)).2)
  | (Raised e, w1) => (Raised e, emit session_close_e w1)
  end.
Proof.
  unfold run_bot, finally, mbind, M_bind, logger_info, construct, tell.
  destruct (build _ _ _ _) as [[b|e] w1]; [|reflexivity].
  destruct (runner_run _ _ _). reflexivity.
Qed.

Lemma run_bot_rejected transport runner_args sigs w :
  credentials_accepted (environ w) = false →
  ∃ e w' pre,
    run_bot transport runner_args sigs w = (Raised e, w') ∧
    trace w' = trace w
               ++ [logger_info_e "Starting bot"; construct_e ClientSession_cls]
               ++ pre ++ [session_close_e] ∧
    pre `prefix_of`
      [construct_e DeepgramSTTService_cls;
       construct_e CartesiaTTSService_cls;
       construct_e GoogleLLMService_cls].
Proof.
  intros Hacc. rewrite run_bot_unfold.
  destruct (build_rejected client_session transport runner_args
              (emit (construct_e ClientSession_cls)
                 (emit (logger_info_e "Starting bot") w)) Hacc)
    as (e & w1 & pre & -> & Htr & Hpre).
  exists e, (emit session_close_e w1), pre.
  split; [reflexivity|]. split; [|exact Hpre].
  simpl. rewrite Htr. simpl. rewrite <- !app_assoc. reflexivity.
Qed.

Lemma run_bot_accepted transport runner_args sigs w :
  credentials_accepted (environ w) = true →
  ∃ w' before after,
    run_bot transport runner_args sigs w = (Ok tt, w') ∧
    trace w' = trace w ++ before ++ [runner_run_e] ++ after.
Proof.
  intros Hacc. rewrite run_bot_unfold.
  destruct (build_accepted client_session transport runner_args
              (emit (construct_e ClientSession_cls)
                 (emit (logger_info_e "Starting bot") w)) Hacc)
    as (b & w1 & Hbuild & Htr).
  rewrite Hbuild.
  pose proof (build_messages _ _ _ _ _ _ Hbuild) as Hmsgs.
  apply build_inv in Hbuild as (Hb & _).
  unfold runner_run, mbind, M_bind, tell.
  assert (Hmsgs' :
            heap (emit runner_run_e
                    (emit (construct_e PipelineRunner_cls) w1))
              !! bot_messages b = Some [system_prompt]) by exact Hmsgs.
  destruct (run_signals_run b sigs
              (emit runner_run_e (emit (construct_e PipelineRunner_cls) w1))
              [system_prompt] Hb Hmsgs') as (w2 & Hrun & _ & _ & _ & Htr2).
  rewrite Hrun. cbn [fst snd].
  cbn [emit trace] in Htr, Htr2. rewrite Htr in Htr2.
  rewrite <- !app_assoc in Htr2. cbn [app] in Htr2.
  exists (emit session_close_e w2),
    [logger_info_e "Starting bot"; construct_e ClientSession_cls;
     construct_e DeepgramSTTService_cls;
     construct_e CartesiaTTSService_cls;
     construct_e GoogleLLMService_cls;
     construct_e TavusVideoService_cls;
     construct_e LLMContext_cls;
     construct_e LLMContextAggregatorPair_cls;
     construct_e RTVIProcessor_cls;
     construct_e Pipeline_cls;
     construct_e PipelineParams_cls;
     construct_e PipelineTask_cls;
     construct_e PipelineRunner_cls],
    (flat_map (emitted (bot_messages b)) (delivered (cancelled w1) sigs)
     ++ [session_close_e]).
  split; [reflexivity|].
  cbn [emit trace]. rewrite Htr2. rewrite <- !app_assoc. reflexivity.
Qed.
End Startup.

Lemma build_first_rejected
    {collab : Collaborators} (session : ClientSession)
    (transport : BaseTransport) (runner_args : RunnerArguments)
    (w : World) (c : PyClass) :
  first_rejected (environ w) = Some c →
  (build session transport runner_args w).1 = Raised (ServiceInitError c) ∧
  trace (build session transport runner_args w).2
    = trace w ++ (construct_e <$> built_before c).
Proof.
  unfold first_rejected, build, new_DeepgramSTTService,
    new_CartesiaTTSService, new_GoogleLLMService, new_TavusVideoService.
  run_m.
  destruct (deepgram_accepts _); simpl.
  2:{ intros [= <-]. simpl. by rewrite app_nil_r. }
  destruct (cartesia_accepts _ _); simpl.
  2:{ by intros [= <-]. }
  destruct (google_accepts _); simpl.
  2:{ intros [= <-]. simpl. by rewrite <- app_assoc. }
  destruct (tavus_accepts _ _); simpl; [discriminate|].
  intros [= <-]. simpl. by rewrite <- !app_assoc.
Qed.

Lemma first_rejected_class {collab : Collaborators}
    (env : gmap string string) (c : PyClass) :
  first_rejected env = Some c →
  c = DeepgramSTTService_cls ∨ c = CartesiaTTSService_cls ∨
  c = GoogleLLMService_cls ∨ c = TavusVideoService_cls.
Proof.
  unfold first_rejected.
  destruct (deepgram_accepts _); simpl; [|intros [= <-]; tauto].
  destruct (cartesia_accepts _ _); simpl; [|intros [= <-]; tauto].
  destruct (google_accepts _); simpl; [|intros [= <-]; tauto].
  destruct (tavus_accepts _ _); simpl; [discriminate|intros [= <-]; tauto].
Qed.

Lemma run_bot_first_rejected
    {collab : Collaborators} (transport : BaseTransport)
    (runner_args : RunnerArguments) (sigs : list Signal)
    (w : World) (c : PyClass) :
  first_rejected (environ w) = Some c →
  (run_bot transport runner_args sigs w).1 = Raised (ServiceInitError c) ∧
  trace (run_bot transport runner_args sigs w).2
    = trace w
      ++ [logger_info_e "Starting bot"; construct_e ClientSession_cls]
      ++ (construct_e <$> built_before c) ++ [session_close_e].
Proof.
  intros Hc. rewrite run_bot_unfold.
  destruct (build_first_rejected client_session transport runner_args
              (emit (construct_e ClientSession_cls)
                 (emit (logger_info_e "Starting bot") w)) c Hc)
    as [Hr Htr].
  destruct (build _ _ _ _) as [[b|e] w1]; cbn [fst snd] in *;
    [discriminate|].
  injection Hr as ->. split; [reflexivity|].
  cbn [emit trace] in *. rewrite Htr, <- !app_assoc. reflexivity.
Qed.

Lemma spec_clients_first_rejected valid (env : gmap string string) name :
  name ∈ credential_variables →
  credential_ok valid name (env !! name) = false →
  is_Some (first_rejected (collab := spec_clients valid) env).
Proof.
  unfold credential_variables, first_rejected. simpl. intros Hin Hbad.
  repeat (apply elem_of_cons in Hin as [->|Hin];
          [rewrite ?Hbad; simpl;
           repeat (destruct (credential_ok valid _ _); simpl; eauto) |]).
  by apply elem_of_nil in Hin.
Qed.

Lemma spec_clients_accepted valid (env : gmap string string) :
  (∀ name, name ∈ credential_variables →
           credential_ok valid name (env !! name) = true) →
  credentials_accepted (collab := spec_clients valid) env = true.
Proof.
  intros Hall. unfold credentials_accepted. simpl.
  rewrite !Hall; [done | | | |];
    unfold credential_variables; rewrite !elem_of_cons; tauto.
Qed.

(** C7: configuration errors are fatal at startup.  An unknown transport
    kind raises a configuration error before anything is built.  When one
    of the four credential variables is missing, or holds a value its vendor
    does not accept, a client constructor raises; nothing in [run_bot]
    catches it or tries again, so the exception leaves [bot]: no pipeline and
    no task is built, the runner never runs, no step is taken twice, and the
    HTTP session is closed on the way out.  When all four credentials are
    set and accepted, the pipeline is run. *)
Theorem configuration_errors_fatal_at_startup
    (valid : string → string → bool) (runner_args : RunnerArguments)
    (sigs : list Signal) (env : gmap string string) :
  (cli_transport runner_args ≠ "webrtc" →
     bot (collab := spec_clients valid) runner_args sigs (world0 env)
     = (Raised (ConfigurationError (cli_transport runner_args)), world0 env)) ∧
  (cli_transport runner_args = "webrtc" →
   ∀ name, name ∈ credential_variables →
     (env !! name = None ∨ ∃ v, env !! name = Some v ∧ valid name v = false) →
     ∃ c,
       (bot (collab := spec_clients valid) runner_args sigs (world0 env)).1
         = Raised (ServiceInitError c) ∧
       (runner_run_e
          ∉ trace (bot (collab := spec_clients valid) runner_args sigs
                     (world0 env)).2) ∧
       (construct_e Pipeline_cls
          ∉ trace (bot (collab := spec_clients valid) runner_args sigs
                     (world0 env)).2) ∧
       (construct_e PipelineTask_cls
          ∉ trace (bot (collab := spec_clients valid) runner_args sigs
                     (world0 env)).2) ∧
       NoDup (trace (bot (collab := spec_clients valid) runner_args sigs
                       (world0 env)).2) ∧
       last (trace (bot (collab := spec_clients valid) runner_args sigs
                      (world0 env)).2) = Some session_close_e) ∧
  (cli_transport runner_args = "webrtc" →
   (∀ name, name ∈ credential_variables →
            ∃ v, env !! name = Some v ∧ valid name v = true) →
     (bot (collab := spec_clients valid) runner_args sigs (world0 env)).1
       = Ok tt ∧
     runner_run_e
       ∈ trace (bot (collab := spec_clients valid) runner_args sigs
                  (world0 env)).2).
Proof.
  unfold bot. split; [|split].
  - intros Hkind. unfold mbind, M_bind.
    rewrite (create_transport_unknown runner_args (world0 env) Hkind).
    reflexivity.
  - intros Hkind name Hname Hbad.
    assert (Hok : credential_ok valid name (env !! name) = false).
    { destruct Hbad as [->|(v & -> & Hv)]; [reflexivity | exact Hv]. }
    destruct (spec_clients_first_rejected valid env name Hname Hok)
      as [c Hc].
    destruct (create_transport_webrtc runner_args (world0 env) Hkind)
      as (t & w1 & Hct & _ & Henv & Htr & Htr').
    unfold mbind, M_bind. rewrite Hct.
    change (environ (world0 env)) with env in Henv.
    rewrite <- Henv in Hc.
    destruct (run_bot_first_rejected (collab := spec_clients valid)
                t runner_args sigs w1 c Hc) as [Hr Htr2].
    rewrite Htr, Htr' in Htr2. cbn [world0 trace app] in Htr2.
    exists c. split; [exact Hr|]. rewrite Htr2.
    destruct (first_rejected_class _ c Hc) as [-> | [-> | [-> | ->]]];
      (split; [apply (bool_decide_unpack _); by vm_compute|]);
      (split; [apply (bool_decide_unpack _); by vm_compute|]);
      (split; [apply (bool_decide_unpack _); by vm_compute|]);
      (split; [apply (bool_decide_unpack _); by vm_compute|]);
      reflexivity.
  - intros Hkind Hall.
    assert (Hacc : credentials_accepted (collab := spec_clients valid) env
                   = true).
    { apply spec_clients_accepted. intros name Hname.
      destruct (Hall name Hname) as (v & -> & Hv). exact Hv. }
    destruct (create_transport_webrtc runner_args (world0 env) Hkind)
      as (t & w1 & Hct & _ & Henv & _).
    unfold mbind, M_bind. rewrite Hct.
    change (environ (world0 env)) with env in Henv.
    rewrite <- Henv in Hacc.
    destruct (run_bot_accepted (collab := spec_clients valid)
                t runner_args sigs w1 Hacc)
      as (w' & before & after & Hrun & Htr').
    rewrite Hrun. cbn [fst snd]. split; [reflexivity|]. rewrite Htr'.
    rewrite !elem_of_app, elem_of_cons. tauto.
Qed.

Lemma configuration_errors_fatal_at_startup_witness :
  (∃ c,
     (bot (collab := strict) demo_args [client_ready]
        (world0 {[ "DEEPGRAM_API_KEY" := "dg-key" ]})).1
       = Raised (ServiceInitError c) ∧
     runner_run_e
       ∉ trace (bot (collab := strict) demo_args [client_ready]
                  (world0 {[ "DEEPGRAM_API_KEY" := "dg-key" ]})).2) ∧
  (bot (collab := strict) demo_args [client_ready] (world0 demo_env)).1
    = Ok tt.
Proof.
  split.
  - destruct (proj1 (proj2 (configuration_errors_fatal_at_startup
                              (λ _ _, true) demo_args [client_ready]
                              {[ "DEEPGRAM_API_KEY" := "dg-key" ]}))
                eq_refl "CARTESIA_API_KEY")
      as (c & Hr & Hrun & _).
    + apply (bool_decide_unpack _). by vm_compute.
    + left. reflexivity.
    + exists c. split; [exact Hr | exact Hrun].
  - refine (proj1 (proj2 (proj2 (configuration_errors_fatal_at_startup
                                   (λ _ _, true) demo_args [client_ready]
                                   demo_env)) eq_refl _)).
    intros name Hname.
    unfold credential_variables in Hname.
    repeat (apply elem_of_cons in Hname as [->|Hname];
            [eexists; split; reflexivity|]).
    by apply elem_of_nil in Hname.
Defined.

(** * Further properties of the code *)

(** ** The scope of the HTTP session in [run_bot] *)

Lemma emitted_signal_effect l sigs e :
  e ∈ flat_map (emitted l) sigs → signal_effect e = true.
Proof.
  induction sigs as [|sg sigs IH]; simpl.
  - by intros ?%elem_of_nil.
  - rewrite elem_of_app. intros [Hin|Hin]; [|by apply IH].
    destruct sg; simpl in Hin;
      repeat (apply elem_of_cons in Hin as [->|Hin]; [reflexivity|]);
      by apply elem_of_nil in Hin.
Qed.

Lemma run_bot_accepted_trace {collab : Collaborators}
    transport runner_args sigs w :
  credentials_accepted (environ w) = true →
  ∃ after,
    (run_bot transport runner_args sigs w).1 = Ok tt ∧
    trace (run_bot transport runner_args sigs w).2
    = trace w
      ++ [logger_info_e "Starting bot"; construct_e ClientSession_cls]
      ++ ([construct_e DeepgramSTTService_cls;
           construct_e CartesiaTTSService_cls;
           construct_e GoogleLLMService_cls;
           construct_e TavusVideoService_cls;
           construct_e LLMContext_cls;
           construct_e LLMContextAggregatorPair_cls;
           construct_e RTVIProcessor_cls;
           construct_e Pipeline_cls;
           construct_e PipelineParams_cls;
           construct_e PipelineTask_cls;
           construct_e PipelineRunner_cls;
           runner_run_e] ++ after)
      ++ [session_close_e] ∧
    (∀ e, e ∈ after → signal_effect e = true).
Proof.
  intros Hacc. rewrite run_bot_unfold.
  destruct (build_accepted client_session transport runner_args
              (emit (construct_e ClientSession_cls)
                 (emit (logger_info_e "Starting bot") w)) Hacc)
    as (b & w1 & Hbuild & Htr).
  rewrite Hbuild.
  pose proof (build_messages _ _ _ _ _ _ Hbuild) as Hmsgs.
  apply build_inv in Hbuild as (Hb & _).
  unfold runner_run, mbind, M_bind, tell.
  assert (Hmsgs' :
            heap (emit runner_run_e
                    (emit (construct_e PipelineRunner_cls) w1))
              !! bot_messages b = Some [system_prompt]) by exact Hmsgs.
  destruct (run_signals_run b sigs
              (emit runner_run_e (emit (construct_e PipelineRunner_cls) w1))
              [system_prompt] Hb Hmsgs') as (w2 & Hrun & _ & _ & _ & Htr2).
  rewrite Hrun. cbn [fst snd].
  cbn [emit trace] in Htr, Htr2. rewrite Htr in Htr2.
  rewrite <- !app_assoc in Htr2. cbn [app] in Htr2.
  exists (flat_map (emitted (bot_messages b)) (delivered (cancelled w1) sigs)).
  split; [reflexivity|]. split.
  - cbn [emit trace]. rewrite Htr2. rewrite <- !app_assoc. reflexivity.
  - intros e. apply emitted_signal_effect.
Qed.

(** X1: whatever the clients, the environment and the signals, [run_bot]
    logs its start, acquires the HTTP session once, before anything else is
    built, and releases it once, as the last thing it does, on the failure
    path as on the success path. *)
Theorem session_acquired_and_released_once
    {collab : Collaborators} (transport : BaseTransport)
    (runner_args : RunnerArguments) (sigs : list Signal) (w : World) :
  ∃ mid,
    effects_since w (run_bot transport runner_args sigs w).2
    = [logger_info_e "Starting bot"; construct_e ClientSession_cls]
      ++ mid ++ [session_close_e] ∧
    (construct_e ClientSession_cls ∉ mid) ∧
    (session_close_e ∉ mid) ∧
    last (trace (run_bot transport runner_args sigs w).2)
    = Some session_close_e.
Proof.
  unfold effects_since.
  destruct (credentials_accepted (environ w)) eqn:Hacc.
  - destruct (run_bot_accepted_trace transport runner_args sigs w Hacc)
      as (after & _ & Htr & Hafter).
    rewrite Htr, drop_app_length.
    eexists. split; [reflexivity|].
    split; [|split].
    + intros Hbad.
      repeat (apply elem_of_cons in Hbad as [Hbad|Hbad]; [discriminate|]).
      by apply Hafter in Hbad.
    + intros Hbad.
      repeat (apply elem_of_cons in Hbad as [Hbad|Hbad]; [discriminate|]).
      by apply Hafter in Hbad.
    + rewrite !app_assoc. apply last_snoc.
  - destruct (run_bot_rejected transport runner_args sigs w Hacc)
      as (e & w' & pre & Hrun & Htr & Hpre).
    rewrite Hrun. cbn [snd]. rewrite Htr, drop_app_length.
    exists pre. split; [reflexivity|].
    assert (Hin : ∀ x, x ∈ pre →
              x ∈ [construct_e DeepgramSTTService_cls;
                   construct_e CartesiaTTSService_cls;
                   construct_e GoogleLLMService_cls]).
    { intros x Hx. destruct Hpre as [k ->]. apply elem_of_app. by left. }
    split; [|split].
    + intros Hbad. apply Hin in Hbad.
      repeat (apply elem_of_cons in Hbad as [Hbad|Hbad]; [discriminate|]).
      by apply elem_of_nil in Hbad.
    + intros Hbad. apply Hin in Hbad.
      repeat (apply elem_of_cons in Hbad as [Hbad|Hbad]; [discriminate|]).
      by apply elem_of_nil in Hbad.
    + rewrite !app_assoc. apply last_snoc.
Qed.

(** ** What [build] puts where *)

Lemma build_stages
    {collab : Collaborators} (session : ClientSession)
    (transport : BaseTransport) (runner_args : RunnerArguments)
    (w w1 : World) (b : Bot) :
  build session transport runner_args w = (Ok b, w1) →
  processors (task_pipeline (bot_task b)) =
  [ transport_input transport;
    rtvi_stage (bot_rtvi b);
    stt_stage {| stt_api_key := environ w !! "DEEPGRAM_API_KEY" |};
    user_aggregator (bot_context b);
    llm_stage {| llm_api_key := environ w !! "GOOGLE_API_KEY" |};
    tts_stage {| tts_api_key := environ w !! "CARTESIA_API_KEY";
                 voice_id := "a167e0f3-df7e-4d52-a9c3-f949145efdab" |};
    tavus_stage {| tavus_api_key := environ w !! "TAVUS_API_KEY";
                   replica_id := environ w !! "TAVUS_REPLICA_ID";
                   tavus_session := session |};
    transport_output transport;
    assistant_aggregator (bot_context b) ].
Proof.
  unfold build, new_DeepgramSTTService, new_CartesiaTTSService,
    new_GoogleLLMService, new_TavusVideoService, new_list, new_LLMContext,
    new_LLMContextAggregatorPair, new_RTVIProcessor, new_Pipeline,
    new_PipelineTask.
  run_m.
  destruct (deepgram_accepts _); simpl; [|discriminate].
  destruct (cartesia_accepts _ _); simpl; [|discriminate].
  destruct (google_accepts _); simpl; [|discriminate].
  destruct (tavus_accepts _ _); simpl; [|discriminate].
  intros [= <- <-]. reflexivity.
Qed.

(** X2: in the pipeline [run_bot] builds, every client carries the value
    of its own environment variable and nothing else's: the speech-to-text
    stage the Deepgram key, the language model the Google key, the
    text-to-speech stage the Cartesia key and the fixed voice, the avatar
    stage the Tavus key, the replica id and the HTTP session of the
    enclosing block; both transport ends belong to the transport [run_bot]
    was given and both aggregators to the one context. *)
Theorem clients_wired_to_their_credentials
    {collab : Collaborators} (session : ClientSession)
    (transport : BaseTransport) (runner_args : RunnerArguments)
    (w w1 : World) (b : Bot) :
  build session transport runner_args w = (Ok b, w1) →
  ∃ stt llm tts tavus,
    processors (task_pipeline (bot_task b)) =
    [ transport_input transport; rtvi_stage (bot_rtvi b); stt_stage stt;
      user_aggregator (bot_context b); llm_stage llm; tts_stage tts;
      tavus_stage tavus; transport_output transport;
      assistant_aggregator (bot_context b) ] ∧
    stt_api_key stt = environ w !! "DEEPGRAM_API_KEY" ∧
    llm_api_key llm = environ w !! "GOOGLE_API_KEY" ∧
    tts_api_key tts = environ w !! "CARTESIA_API_KEY" ∧
    voice_id tts = "a167e0f3-df7e-4d52-a9c3-f949145efdab" ∧
    tavus_api_key tavus = environ w !! "TAVUS_API_KEY" ∧
    replica_id tavus = environ w !! "TAVUS_REPLICA_ID" ∧
    tavus_session tavus = session ∧
    ctx_messages (bot_context b) = bot_messages b.
Proof.
  intros Hbuild.
  pose proof (build_stages _ _ _ _ _ _ Hbuild) as Hst.
  apply build_inv in Hbuild as (Hb & _).
  eexists _, _, _, _. split; [exact Hst|].
  repeat split. apply (wired_context b Hb).
Qed.

Lemma clients_wired_to_their_credentials_witness :
  ∃ stt llm tts tavus,
    processors (task_pipeline (bot_task demo_bot)) =
    [ transport_input demo_transport; rtvi_stage (bot_rtvi demo_bot);
      stt_stage stt; user_aggregator (bot_context demo_bot); llm_stage llm;
      tts_stage tts; tavus_stage tavus; transport_output demo_transport;
      assistant_aggregator (bot_context demo_bot) ] ∧
    stt_api_key stt = environ (world0 demo_env) !! "DEEPGRAM_API_KEY".
Proof.
  destruct (clients_wired_to_their_credentials (collab := strict)
              client_session demo_transport demo_args (world0 demo_env) demo_world
              demo_bot demo_build)
    as (stt & llm & tts & tavus & Hst & Hk & _).
  exists stt, llm, tts, tavus. split; [exact Hst | exact Hk].
Defined.

(** X3: a session is born idle, whatever the process did before.
    Building it allocates one list object, holding the system prompt, at a
    fresh reference and leaves every other list object as it was; the new
    coordination processor is not ready, the new task has nothing queued and
    is not cancelled, and the task gets the idle timeout of the runner
    arguments with both metric flags on. *)
Theorem build_leaves_session_idle
    {collab : Collaborators} (session : ClientSession)
    (transport : BaseTransport) (runner_args : RunnerArguments)
    (w w1 : World) (b : Bot) :
  build session transport runner_args w = (Ok b, w1) →
  bot_messages b = next_loc w ∧
  heap w1 !! bot_messages b = Some [system_prompt] ∧
  (∀ l, l ≠ bot_messages b → heap w1 !! l = heap w !! l) ∧
  bot_ready w1 = false ∧
  queued w1 = [] ∧
  cancelled w1 = false ∧
  idle_timeout_secs (bot_task b) = pipeline_idle_timeout_secs runner_args ∧
  enable_metrics (params (bot_task b)) = true ∧
  enable_usage_metrics (params (bot_task b)) = true.
Proof.
  intros Hbuild.
  pose proof (build_messages _ _ _ _ _ _ Hbuild) as Hmsgs.
  apply build_inv in Hbuild
    as (_ & _ & Hm & Hp & Hidle & Hheap & Hr & Hq & Hc & _).
  rewrite Hp. repeat split; try done.
  intros l Hl. rewrite Hheap, Hm in *. by rewrite lookup_insert_ne.
Qed.

(** A process in which an earlier session was left ready and cancelled,
    with a frame still queued. *)
Definition used_world : World :=
  (on_client_disconnected demo_task demo_transport the_client
     (on_client_ready 0 demo_task the_rtvi demo_world).2).2.

Lemma build_leaves_session_idle_witness :
  bot_ready used_world = true ∧ cancelled used_world = true ∧
  queued used_world = [LLMRunFrame] ∧
  ∃ b w1,
    build (collab := strict) client_session demo_transport demo_args
      used_world = (Ok b, w1) ∧
    bot_ready w1 = false ∧ queued w1 = [] ∧ cancelled w1 = false ∧
    heap w1 !! 0 = heap used_world !! 0.
Proof.
  split; [reflexivity|]. split; [reflexivity|]. split; [reflexivity|].
  destruct (build (collab := strict) client_session demo_transport demo_args
              used_world) as [[b|e] w1] eqn:Hbuild; [|by vm_compute in Hbuild].
  exists b, w1. split; [reflexivity|].
  destruct (build_leaves_session_idle (collab := strict) client_session
              demo_transport demo_args used_world w1 b Hbuild)
    as (Hm & _ & Hother & Hr & Hq & Hc & _).
  split; [exact Hr|]. split; [exact Hq|]. split; [exact Hc|].
  apply Hother. rewrite Hm. by vm_compute.
Defined.

(** ** The order in which the clients are built *)

(** X4: the clients are built in the order Deepgram, Cartesia, Google,
    Tavus and the first constructor that rejects ends [build]: the
    exception names that client, exactly the clients before it have been
    constructed, no list object has been allocated, and no later
    constructor is tried.  When none rejects, [build] returns a session. *)
Theorem build_fails_at_first_rejection
    {collab : Collaborators} (session : ClientSession)
    (transport : BaseTransport) (runner_args : RunnerArguments) (w : World) :
  match first_rejected (environ w) with
  | Some c =>
      (build session transport runner_args w).1
        = Raised (ServiceInitError c) ∧
      trace (build session transport runner_args w).2
        = trace w ++ (construct_e <$> built_before c) ∧
      heap (build session transport runner_args w).2 = heap w ∧
      next_loc (build session transport runner_args w).2 = next_loc w
  | None =>
      ∃ b, (build session transport runner_args w).1 = Ok b ∧
           credentials_accepted (environ w) = true
  end.
Proof.
  unfold first_rejected, credentials_accepted, build,
    new_DeepgramSTTService, new_CartesiaTTSService, new_GoogleLLMService,
    new_TavusVideoService.
  run_m.
  destruct (deepgram_accepts _); simpl.
  2:{ rewrite app_nil_r. done. }
  destruct (cartesia_accepts _ _); simpl; [|done].
  destruct (google_accepts _); simpl.
  2:{ by rewrite <- app_assoc. }
  destruct (tavus_accepts _ _); simpl.
  2:{ by rewrite <- !app_assoc. }
  eexists. split; reflexivity.
Qed.


Lemma build_fails_at_first_rejection_witness :
  (build (collab := strict) client_session demo_transport demo_args
     (world0 {[ "DEEPGRAM_API_KEY" := "k" ]})).1
    = Raised (ServiceInitError CartesiaTTSService_cls) ∧
  trace (build (collab := strict) client_session demo_transport demo_args
           (world0 {[ "DEEPGRAM_API_KEY" := "k" ]})).2
    = [construct_e DeepgramSTTService_cls].
Proof.
  pose proof (build_fails_at_first_rejection (collab := strict)
                client_session demo_transport demo_args
                (world0 {[ "DEEPGRAM_API_KEY" := "k" ]})) as Hth.
  assert (Hfirst : first_rejected (collab := strict)
                     (environ (world0 {[ "DEEPGRAM_API_KEY" := "k" ]}))
                   = Some CartesiaTTSService_cls) by (by vm_compute).
  rewrite Hfirst in Hth. destruct Hth as (Hr & Htr & _).
  split; [exact Hr | exact Htr].
Defined.

(** ** The two handlers on their own *)

(** X5: [on_client_disconnected] only cancels.  In every state it leaves
    the list objects, the frame queue, the handshake bit and the environment
    untouched, writes one log line and cancels the task; a second invocation
    changes nothing but the trace. *)
Theorem disconnect_handler_only_cancels
    (task : PipelineTask) (tr : BaseTransport) (c : Client) (w : World) :
  (on_client_disconnected task tr c w).1 = Ok tt ∧
  heap (on_client_disconnected task tr c w).2 = heap w ∧
  queued (on_client_disconnected task tr c w).2 = queued w ∧
  bot_ready (on_client_disconnected task tr c w).2 = bot_ready w ∧
  environ (on_client_disconnected task tr c w).2 = environ w ∧
  cancelled (on_client_disconnected task tr c w).2 = true ∧
  effects_since w (on_client_disconnected task tr c w).2
    = [logger_info_e "Client disconnected"; cancel_e] ∧
  cancelled (on_client_disconnected task tr c
               (on_client_disconnected task tr c w).2).2
    = cancelled (on_client_disconnected task tr c w).2 ∧
  heap (on_client_disconnected task tr c
          (on_client_disconnected task tr c w).2).2
    = heap (on_client_disconnected task tr c w).2 ∧
  queued (on_client_disconnected task tr c
            (on_client_disconnected task tr c w).2).2
    = queued (on_client_disconnected task tr c w).2.
Proof.
  rewrite !on_client_disconnected_run. unfold effects_since. simpl.
  rewrite drop_app_length. repeat split.
Qed.


Lemma disconnect_handler_only_cancels_witness :
  cancelled (on_client_disconnected demo_task demo_transport the_client
               demo_world).2 = true ∧
  heap (on_client_disconnected demo_task demo_transport the_client
          demo_world).2 = heap demo_world.
Proof.
  destruct (disconnect_handler_only_cancels demo_task demo_transport
              the_client demo_world) as (_ & Hh & _ & _ & _ & Hc & _).
  split; [exact Hc | exact Hh].
Defined.

Lemma times_on_client_ready_flags messages task rtvi n : ∀ w,
  queued (times n (on_client_ready messages task rtvi) w).2
    = queued w ++ replicate n LLMRunFrame ∧
  cancelled (times n (on_client_ready messages task rtvi) w).2 = cancelled w ∧
  bot_ready (times n (on_client_ready messages task rtvi) w).2
    = match n with 0 => bot_ready w | S _ => true end ∧
  (∀ l, l ≠ messages →
        heap (times n (on_client_ready messages task rtvi) w).2 !! l
        = heap w !! l) ∧
  length (trace (times n (on_client_ready messages task rtvi) w).2)
    = length (trace w) + 4 * n.
Proof.
  induction n as [|n IH]; intros w.
  - simpl. rewrite app_nil_r. repeat split. lia.
  - simpl. unfold mbind, M_bind. rewrite on_client_ready_run.
    match goal with |- context [times n _ ?w1] =>
      destruct (IH w1) as (IHq & IHc & IHr & IHh & IHt) end.
    rewrite IHq, IHc, IHt. simpl. rewrite <- app_assoc. simpl.
    split; [done|]. split; [done|]. split.
    { rewrite IHr. by destruct n. }
    split.
    { intros l Hl. rewrite IHh by done. simpl. by rewrite lookup_alter_ne. }
    rewrite length_app. simpl. lia.
Qed.

(** X6: [n] invocations of [on_client_ready] queue exactly [n] trigger
    frames, one per invocation and behind what was queued before; the
    handler never cancels the task and never touches a list object other
    than [messages]; after the first invocation the handshake bit is set
    and stays set. *)
Theorem ready_handler_queues_one_frame_per_call
    (messages : loc) (task : PipelineTask) (rtvi : RTVIProcessor)
    (n : nat) (w : World) :
  queued (times n (on_client_ready messages task rtvi) w).2
    = queued w ++ replicate n LLMRunFrame ∧
  cancelled (times n (on_client_ready messages task rtvi) w).2 = cancelled w ∧
  bot_ready (times n (on_client_ready messages task rtvi) w).2
    = match n with 0 => bot_ready w | S _ => true end ∧
  (∀ l, l ≠ messages →
        heap (times n (on_client_ready messages task rtvi) w).2 !! l
        = heap w !! l) ∧
  length (effects_since w (times n (on_client_ready messages task rtvi) w).2)
    = 4 * n.
Proof.
  destruct (times_on_client_ready_flags messages task rtvi n w)
    as (Hq & Hc & Hr & Hh & Ht).
  repeat split; try done.
  unfold effects_since. rewrite length_drop, Ht. lia.
Qed.


Lemma ready_handler_queues_one_frame_per_call_witness :
  queued (times 2 (on_client_ready 0 demo_task the_rtvi) demo_world).2
  = queued demo_world ++ replicate 2 LLMRunFrame.
Proof.
  exact (proj1 (ready_handler_queues_one_frame_per_call 0 demo_task the_rtvi
                  2 demo_world)).
Defined.

(** X7: the two handlers act on separate parts of the session, so the
    order in which they run does not matter for the session state: ready
    then disconnect and disconnect then ready leave the same list objects,
    the same queue and the same two flags. *)
Theorem handlers_commute
    (messages : loc) (task : PipelineTask) (rtvi : RTVIProcessor)
    (tr : BaseTransport) (c : Client) (w : World) :
  heap (on_client_disconnected task tr c
          (on_client_ready messages task rtvi w).2).2
    = heap (on_client_ready messages task rtvi
              (on_client_disconnected task tr c w).2).2 ∧
  queued (on_client_disconnected task tr c
            (on_client_ready messages task rtvi w).2).2
    = queued (on_client_ready messages task rtvi
                (on_client_disconnected task tr c w).2).2 ∧
  bot_ready (on_client_disconnected task tr c
               (on_client_ready messages task rtvi w).2).2
    = bot_ready (on_client_ready messages task rtvi
                   (on_client_disconnected task tr c w).2).2 ∧
  cancelled (on_client_disconnected task tr c
               (on_client_ready messages task rtvi w).2).2
    = cancelled (on_client_ready messages task rtvi
                   (on_client_disconnected task tr c w).2).2.
Proof.
  rewrite !on_client_ready_run, !on_client_disconnected_run. cbn [snd].
  rewrite ?on_client_ready_run, ?on_client_disconnected_run.
  repeat split.
Qed.


Lemma handlers_commute_witness :
  heap (on_client_disconnected demo_task demo_transport the_client
          (on_client_ready 0 demo_task the_rtvi demo_world).2).2
  = heap (on_client_ready 0 demo_task the_rtvi
            (on_client_disconnected demo_task demo_transport the_client
               demo_world).2).2.
Proof.
  exact (proj1 (handlers_commute 0 demo_task the_rtvi demo_transport
                  the_client demo_world)).
Defined.

(** ** The handshake bit over a whole run *)

Lemma deliver_flags b sg w :
  wired b →
  ∃ w', deliver b sg w = (Ok tt, w') ∧
        bot_ready w' = bot_ready w || is_ready sg ∧
        cancelled w' = cancelled w || is_disconnect sg.
Proof.
  intros Hb. rewrite deliver_wired by done. destruct sg.
  - rewrite on_client_ready_run. eexists. split; [reflexivity|]. simpl.
    by rewrite orb_true_r, orb_false_r.
  - rewrite on_client_disconnected_run. eexists. split; [reflexivity|].
    simpl. by rewrite orb_true_r, orb_false_r.
  - unfold user_aggregator_push. rewrite add_message_run.
    eexists. split; [reflexivity|]. simpl. by rewrite !orb_false_r.
  - unfold assistant_aggregator_push. rewrite add_message_run.
    eexists. split; [reflexivity|]. simpl. by rewrite !orb_false_r.
Qed.

Lemma run_signals_bot_ready b sigs : ∀ w,
  wired b →
  bot_ready (run_signals b sigs w).2
  = bot_ready w || existsb is_ready (delivered (cancelled w) sigs).
Proof.
  induction sigs as [|sg rest IH]; intros w Hb.
  - simpl. by rewrite orb_false_r.
  - simpl. destruct (cancelled w) eqn:Hc.
    + simpl. by rewrite orb_false_r.
    + unfold mbind, M_bind.
      destruct (deliver_flags b sg w Hb) as (w1 & -> & Hr & Hcan).
      rewrite IH by done. rewrite Hr, Hcan, Hc. simpl.
      by rewrite orb_assoc.
Qed.

Lemma delivered_without_ready sigs : ∀ c,
  client_ready ∉ sigs → existsb is_ready (delivered c sigs) = false.
Proof.
  induction sigs as [|sg sigs IH]; intros c Hno; simpl; [done|].
  destruct c; [done|].
  apply not_elem_of_cons in Hno as [Hsg Hno]. simpl.
  rewrite IH by done. by destruct sg.
Qed.

Lemma delivered_reaches_ready pre rest :
  client_disconnected ∉ pre →
  existsb is_ready (delivered false (pre ++ client_ready :: rest)) = true.
Proof.
  induction pre as [|sg pre IH]; intros Hno; simpl; [done|].
  apply not_elem_of_cons in Hno as [Hsg Hno].
  destruct sg; simpl; try done; by apply IH.
Qed.

(** X8: over a whole run the bot's readiness follows the client's.  A
    new session is not ready; the handshake bit changes only when a
    client-ready signal is delivered: a run without one ends not ready, and
    a run in which a client-ready arrives before any disconnect ends
    ready. *)
Theorem bot_ready_follows_client_ready
    {collab : Collaborators} (session : ClientSession)
    (transport : BaseTransport) (runner_args : RunnerArguments)
    (w0 w1 : World) (b : Bot) :
  build session transport runner_args w0 = (Ok b, w1) →
  bot_ready w1 = false ∧
  (∀ sigs, client_ready ∉ sigs →
           bot_ready (run_signals b sigs w1).2 = false) ∧
  (∀ pre rest, client_disconnected ∉ pre →
               bot_ready (run_signals b (pre ++ client_ready :: rest) w1).2
               = true).
Proof.
  intros Hbuild.
  apply build_inv in Hbuild as (Hb & _ & _ & _ & _ & _ & Hr & _ & Hc & _).
  split; [done|]. split.
  - intros sigs Hno. rewrite run_signals_bot_ready by done.
    rewrite delivered_without_ready by done. by rewrite Hr.
  - intros pre rest Hno. rewrite run_signals_bot_ready by done.
    rewrite Hc, delivered_reaches_ready by done. by rewrite orb_true_r.
Qed.

Lemma bot_ready_follows_client_ready_witness :
  bot_ready (run_signals demo_bot [user_turn "hello"; client_disconnected]
               demo_world).2 = false ∧
  bot_ready (run_signals demo_bot
               ([user_turn "hello"] ++ client_ready :: [client_disconnected])
               demo_world).2 = true.
Proof.
  pose proof (bot_ready_follows_client_ready (collab := strict)
                client_session demo_transport demo_args (world0 demo_env)
                demo_world demo_bot demo_build) as (_ & Hnone & Hsome).
  split.
  - apply Hnone. intros Hin.
    repeat (apply elem_of_cons in Hin as [Hin|Hin]; [discriminate|]).
    by apply elem_of_nil in Hin.
  - apply Hsome. intros Hin.
    repeat (apply elem_of_cons in Hin as [Hin|Hin]; [discriminate|]).
    by apply elem_of_nil in Hin.
Defined.

(** ** Ready, then disconnect *)

(** X9: when a client-ready signal is followed at once by a
    client-disconnect, the two handlers run back to back and nothing after
    them: the session ends ready and cancelled, with the greeting directive
    behind the system prompt, one trigger frame queued, and exactly the six
    effects of the two handlers in the trace. *)
Theorem ready_then_disconnect
    {collab : Collaborators} (session : ClientSession)
    (transport : BaseTransport) (runner_args : RunnerArguments)
    (w0 w1 : World) (b : Bot) (rest : list Signal) :
  build session transport runner_args w0 = (Ok b, w1) →
  cancelled w1 = false →
  (run_signals b (client_ready :: client_disconnected :: rest) w1).1 = Ok tt ∧
  cancelled (run_signals b (client_ready :: client_disconnected :: rest) w1).2
    = true ∧
  bot_ready (run_signals b (client_ready :: client_disconnected :: rest) w1).2
    = true ∧
  context_view (bot_context b)
    (run_signals b (client_ready :: client_disconnected :: rest) w1).2
    = [system_prompt; greeting_directive] ∧
  queued (run_signals b (client_ready :: client_disconnected :: rest) w1).2
    = queued w1 ++ [LLMRunFrame] ∧
  effects_since w1
    (run_signals b (client_ready :: client_disconnected :: rest) w1).2
    = [logger_info_e "Client ready - setting bot ready"; set_bot_ready_e;
       list_append_e (bot_messages b) greeting_directive;
       queue_frames_e [LLMRunFrame];
       logger_info_e "Client disconnected"; cancel_e].
Proof.
  intros Hbuild Hc.
  pose proof (build_messages _ _ _ _ _ _ Hbuild) as Hmsgs.
  apply build_inv in Hbuild as (Hb & _).
  pose proof (run_signals_bot_ready b
                (client_ready :: client_disconnected :: rest) w1 Hb) as Hr.
  destruct (run_signals_run b (client_ready :: client_disconnected :: rest)
              w1 _ Hb Hmsgs) as (w2 & Hrun & Hh & Hq & Hcan & Htr).
  rewrite Hrun in *. cbn [fst snd] in *.
  rewrite Hc in *. simpl in Hh, Hq, Hcan, Htr, Hr.
  rewrite delivered_cancelled in *. simpl in *.
  rewrite orb_true_r in Hr.
  split; [done|]. split; [done|]. split; [done|].
  split; [by rewrite context_view_lookup, (wired_context b Hb), Hh|].
  split; [done|].
  unfold effects_since. by rewrite Htr, drop_app_length.
Qed.

Lemma ready_then_disconnect_witness :
  context_view (bot_context demo_bot)
    (run_signals demo_bot
       (client_ready :: client_disconnected :: [user_turn "late"])
       demo_world).2
  = [system_prompt; greeting_directive].
Proof.
  exact (proj1 (proj2 (proj2 (proj2
    (ready_then_disconnect (collab := strict) client_session demo_transport
       demo_args (world0 demo_env) demo_world demo_bot [user_turn "late"]
       demo_build eq_refl))))).
Defined.
